(** * Number base converter: the conversion core of [converter_utils.py]

    A shallow embedding of [get_base_value], [validate_number],
    [convert_number_logic] and [get_prefixed_result], together with the
    parts of the Python runtime they call: [str] methods, [int(str, base)],
    [bin]/[oct]/[hex]/[str] on integers, and [decimal.Decimal] arithmetic
    under the context the module installs ([prec = 20], the other fields at
    their defaults).

    Conventions of the embedding.
    - A Python [str] is a [string]; the character with code [n] stands for
      the code point U+00[n], so the model covers the strings whose code
      points lie below 256.
    - A Python [int] is a [Z].  The interpreter's optional limit on the
      length of decimal integer strings is taken to be switched off.
    - An exception is a value of [Exception]; code that may raise returns a
      [result]. *)

From Stdlib Require Import ZArith List String Ascii Bool Lia.
Import ListNotations.

Local Open Scope string_scope.
Local Open Scope Z_scope.

(* ------------------------------------------------------------------ *)
(** ** Exceptions and the error monad *)

(** The exceptions the modelled code can raise.  [ValueErrorFrom msg e] is
    what [raise ValueError(msg) from e] raises: a [ValueError] whose cause
    is [e]. *)
Inductive Exception : Type :=
| ValueError (msg : string)
| ValueErrorFrom (msg : string) (cause : Exception)
| DecimalOverflow
| DecimalDivisionByZero
| DecimalInvalidOperation.

Inductive result (A : Type) : Type :=
| Ok (a : A)
| Raise (e : Exception).

Arguments Ok {A} a.
Arguments Raise {A} e.

Definition bind {A B : Type} (r : result A) (k : A -> result B) : result B :=
  match r with
  | Ok a => k a
  | Raise e => Raise e
  end.

Notation "x <- r ;; k" := (bind r (fun x => k))
  (at level 61, r at next level, right associativity).
Notation "' p <- r ;; k" := (bind r (fun x => match x with p => k end))
  (at level 61, p pattern, r at next level, right associativity).

Definition is_ValueError (e : Exception) : bool :=
  match e with
  | ValueError _ | ValueErrorFrom _ _ => true
  | _ => false
  end.

(* ------------------------------------------------------------------ *)
(** ** Python strings *)

Module PyStr.

Definition ord (c : ascii) : Z := Z.of_N (N_of_ascii c).

(** [chr n] for [0 <= n < 256]. *)
Definition chr (n : Z) : ascii := ascii_of_N (Z.to_N n).

Definition between (lo n hi : Z) : bool := (lo <=? n) && (n <=? hi).

(** ['.' in s] *)
Fixpoint contains_char (c : ascii) (s : string) : bool :=
  match s with
  | EmptyString => false
  | String a r => Ascii.eqb a c || contains_char c r
  end.

Fixpoint count_char (c : ascii) (s : string) : nat :=
  match s with
  | EmptyString => O
  | String a r => (if Ascii.eqb a c then 1 else 0) + count_char c r
  end.

(** [s.split(c)] for a one-character separator: the pieces between the
    occurrences of [c], in order; never the empty list. *)
Fixpoint split (c : ascii) (s : string) : list string :=
  match s with
  | EmptyString => [EmptyString]
  | String a r =>
      if Ascii.eqb a c then EmptyString :: split c r
      else match split c r with
           | p :: ps => String a p :: ps
           | [] => [String a EmptyString]
           end
  end.

(** [a, b = xs]: unpacking into exactly two names. *)
Definition unpack2 (xs : list string) : result (string * string) :=
  match xs with
  | [a; b] => Ok (a, b)
  | [] | [_] => Raise (ValueError "not enough values to unpack")
  | _ => Raise (ValueError "too many values to unpack")
  end.

(** [c.isdigit()]: the ASCII digits and the superscripts U+00B2, U+00B3
    and U+00B9. *)
Definition isdigit (c : ascii) : bool :=
  let n := ord c in
  between 48 n 57 || (n =? 178) || (n =? 179) || (n =? 185).

(** [c.upper()].  The result is a string: U+00DF becomes ["SS"].  The
    upper-case forms of U+00B5 and U+00FF lie outside the modelled range;
    they are left as they are, which no membership test below notices. *)
Definition upper_char (c : ascii) : string :=
  let n := ord c in
  if between 97 n 122 then String (chr (n - 32)) EmptyString
  else if n =? 223 then "SS"
  else if between 224 n 254 && negb (n =? 247)
       then String (chr (n - 32)) EmptyString
  else String c EmptyString.

Fixpoint upper (s : string) : string :=
  match s with
  | EmptyString => EmptyString
  | String c r => upper_char c ++ upper r
  end.

(** [c.lower()] is always a single character in this range. *)
Definition lower_char (c : ascii) : ascii :=
  let n := ord c in
  if between 65 n 90 then chr (n + 32)
  else if between 192 n 222 && negb (n =? 215) then chr (n + 32)
  else c.

Fixpoint lower (s : string) : string :=
  match s with
  | EmptyString => EmptyString
  | String c r => String (lower_char c) (lower r)
  end.

Fixpoint take (n : nat) (s : string) : string :=
  match n, s with
  | S k, String c r => String c (take k r)
  | _, _ => EmptyString
  end.

Fixpoint drop (n : nat) (s : string) : string :=
  match n, s with
  | S k, String _ r => drop k r
  | _, _ => s
  end.

(** [s[:k]], with Python's treatment of a negative or too large [k]. *)
Definition slice_to (s : string) (k : Z) : string :=
  let len := Z.of_nat (String.length s) in
  let k' := if k <? 0 then Z.max 0 (k + len) else Z.min k len in
  take (Z.to_nat k') s.

(** [s[k:]] for [k >= 0]. *)
Definition slice_from (s : string) (k : nat) : string := drop k s.

Fixpoint starts_with (p s : string) : bool :=
  match p, s with
  | EmptyString, _ => true
  | String a p', String b s' => Ascii.eqb a b && starts_with p' s'
  | String _ _, EmptyString => false
  end.

(** [sub in s]: substring test. *)
Fixpoint is_in (sub s : string) : bool :=
  starts_with sub s ||
  match s with
  | EmptyString => false
  | String _ r => is_in sub r
  end.


End PyStr.

(* ------------------------------------------------------------------ *)
(** ** Python integers: parsing and printing *)

Module PyInt.
Import PyStr.

(** The characters [int()] skips around a literal: ASCII white space and,
    among the other code points below 256, U+0085 and U+00A0. *)
Definition is_space (c : ascii) : bool :=
  let n := ord c in
  between 9 n 13 || (n =? 32) || (n =? 133) || (n =? 160).

(** Value of a character as a digit, for bases up to 36. *)
Definition digit_value (c : ascii) : option Z :=
  let n := ord c in
  if between 48 n 57 then Some (n - 48)
  else if between 97 n 122 then Some (n - 87)
  else if between 65 n 90 then Some (n - 55)
  else None.

Fixpoint lstrip (s : string) : string :=
  match s with
  | EmptyString => EmptyString
  | String c r => if is_space c then lstrip r else s
  end.

Definition take_sign (s : string) : Z * string :=
  match s with
  | String c r =>
      if Ascii.eqb c "+" then (1, r)
      else if Ascii.eqb c "-" then (-1, r)
      else (1, s)
  | EmptyString => (1, s)
  end.

Definition is_prefix_letter (base : Z) (c : ascii) : bool :=
  ((base =? 16) && (Ascii.eqb c "x" || Ascii.eqb c "X")) ||
  ((base =? 8) && (Ascii.eqb c "o" || Ascii.eqb c "O")) ||
  ((base =? 2) && (Ascii.eqb c "b" || Ascii.eqb c "B")).

Definition skip_underscore (s : string) : string :=
  match s with
  | String c r => if Ascii.eqb c "_" then r else s
  | EmptyString => s
  end.

(** An optional [0x], [0o] or [0b] matching the base, and one underscore
    after it. *)
Definition take_prefix (base : Z) (s : string) : string :=
  match s with
  | String z (String c r) =>
      if Ascii.eqb z "0" && is_prefix_letter base c then skip_underscore r
      else s
  | _ => s
  end.

(** The run of digits and single underscores.  [prev_us] tells whether
    the previous character was an underscore; a doubled or a trailing
    underscore is an error ([None]). *)
Fixpoint scan (base : Z) (s : string) (prev_us : bool) (acc : Z)
  : option (Z * string) :=
  match s with
  | EmptyString => if prev_us then None else Some (acc, s)
  | String c r =>
      if Ascii.eqb c "_" then
        if prev_us then None else scan base r true acc
      else
        match digit_value c with
        | Some d =>
            if d <? base then scan base r false (acc * base + d)
            else if prev_us then None else Some (acc, s)
        | None => if prev_us then None else Some (acc, s)
        end
  end.

(** The [ValueError] of a rejected literal (message abridged). *)
Definition invalid_literal (s : string) (base : Z) : Exception :=
  ValueError ("invalid literal for int(): " ++ s).

(** [int(s, base)] for [base] in 2..36 (never 0 here). *)
Definition int_of_str (s : string) (base : Z) : result Z :=
  let s1 := lstrip s in
  let '(sign, s2) := take_sign s1 in
  let s3 := take_prefix base s2 in
  if starts_with "_" s3 then Raise (invalid_literal s base)
  else
    match scan base s3 false 0 with
    | None => Raise (invalid_literal s base)
    | Some (v, rest) =>
        if (String.length rest =? String.length s3)%nat
        then Raise (invalid_literal s base)
        else
          match lstrip rest with
          | EmptyString => Ok (sign * v)
          | _ => Raise (invalid_literal s base)
          end
    end.

(** Lower-case digit character of a digit value below 36. *)
Definition digit_char (d : Z) : ascii :=
  if d <? 10 then chr (48 + d) else chr (87 + d).

(** Digits of [n >= 0] in base [b], most significant first. *)
Fixpoint digits (fuel : nat) (b n : Z) : string :=
  match fuel with
  | O => EmptyString
  | S f =>
      if n <? b then String (digit_char n) EmptyString
      else digits f b (n / b) ++ String (digit_char (n mod b)) EmptyString
  end.

Definition fuel_of (n : Z) : nat := S (Z.to_nat (Z.log2 n)).

Definition format (prefix : string) (b n : Z) : string :=
  (if n <? 0 then "-" else "") ++ prefix ++ digits (fuel_of (Z.abs n)) b (Z.abs n).

Definition str (n : Z) : string := format "" 10 n.
Definition bin (n : Z) : string := format "0b" 2 n.
Definition oct (n : Z) : string := format "0o" 8 n.
Definition hex (n : Z) : string := format "0x" 16 n.

End PyInt.

(* ------------------------------------------------------------------ *)
(** ** [decimal.Decimal] under the module's context

    [getcontext().prec = 20] leaves the other fields of the default context:
    rounding [ROUND_HALF_EVEN], [Emin = -999999], [Emax = 999999], and the
    traps [InvalidOperation], [DivisionByZero] and [Overflow], which raise;
    the other signals only set flags.  Only finite numbers arise.  Each
    operation computes the exact result and rounds it with [fix_], as the
    decimal module's reference implementation does. *)

Module PyDecimal.
Import PyStr.

Definition prec : Z := 20.
Definition Emax : Z := 999999.
Definition Emin : Z := -999999.
Definition Etiny : Z := Emin - prec + 1.
Definition Etop : Z := Emax - prec + 1.

(** A finite decimal: [(-1)^sign * coeff * 10^exp], [coeff >= 0]. *)
Record Decimal : Type := mkDecimal { sign : bool; coeff : Z; exp : Z }.

(** Number of digits of a coefficient, [len(self._int)]. *)
Definition len (c : Z) : Z := Z.of_nat (String.length (PyInt.str c)).

(** [Decimal(n)] for an integer [n]: exact, whatever the precision. *)
Definition of_int (n : Z) : Decimal := mkDecimal (n <? 0) (Z.abs n) 0.

Definition negate (d : Decimal) : Decimal :=
  mkDecimal (negb (sign d)) (coeff d) (exp d).

(** Drop the last [k > 0] digits of [c], rounding half to even. *)
Definition round_half_even (c k : Z) : Z :=
  let p := 10 ^ k in
  let q := c / p in
  let r := c mod p in
  if (2 * r >? p) || ((2 * r =? p) && Z.odd q) then q + 1 else q.

(** Round to the context: at most [prec] digits, exponent within bounds. *)
Definition fix_ (d : Decimal) : result Decimal :=
  if coeff d =? 0 then
    Ok (mkDecimal (sign d) 0 (Z.min (Z.max (exp d) Etiny) Emax))
  else
    let exp_min := len (coeff d) + exp d - prec in
    if exp_min >? Etop then Raise DecimalOverflow
    else
      let exp_min := Z.max exp_min Etiny in
      if exp d <? exp_min then
        let c := round_half_even (coeff d) (exp_min - exp d) in
        let '(c, exp_min) :=
          if len c >? prec then (c / 10, exp_min + 1) else (c, exp_min) in
        if exp_min >? Etop then Raise DecimalOverflow
        else Ok (mkDecimal (sign d) c exp_min)
      else Ok d.

(** [_rescale]: the same value at exponent [e]. *)
Definition rescale (d : Decimal) (e : Z) : Decimal :=
  if coeff d =? 0 then mkDecimal (sign d) 0 e
  else if exp d >=? e then mkDecimal (sign d) (coeff d * 10 ^ (exp d - e)) e
  else mkDecimal (sign d) (round_half_even (coeff d) (e - exp d)) e.

Definition signed (d : Decimal) : Z :=
  if sign d then - coeff d else coeff d.

(** [a + b] *)
Definition add (a b : Decimal) : result Decimal :=
  let e := Z.min (exp a) (exp b) in
  if (coeff a =? 0) && (coeff b =? 0) then
    fix_ (mkDecimal (sign a && sign b) 0 e)
  else if coeff a =? 0 then
    fix_ (rescale b (Z.max e (exp b - prec - 1)))
  else if coeff b =? 0 then
    fix_ (rescale a (Z.max e (exp a - prec - 1)))
  else
    let v := signed a * 10 ^ (exp a - e) + signed b * 10 ^ (exp b - e) in
    fix_ (mkDecimal (v <? 0) (Z.abs v) e).

(** [a - b] *)
Definition sub (a b : Decimal) : result Decimal := add a (negate b).

(** [a * b] *)
Definition mul (a b : Decimal) : result Decimal :=
  fix_ (mkDecimal (xorb (sign a) (sign b)) (coeff a * coeff b) (exp a + exp b)).

(** An exact quotient is brought as close to the ideal exponent as its
    trailing zeros allow. *)
Fixpoint strip_to_ideal (fuel : nat) (c e ideal : Z) : Z * Z :=
  match fuel with
  | O => (c, e)
  | S f =>
      if (e <? ideal) && (c mod 10 =? 0)
      then strip_to_ideal f (c / 10) (e + 1) ideal
      else (c, e)
  end.

(** [a / b] *)
Definition div (a b : Decimal) : result Decimal :=
  let sgn := xorb (sign a) (sign b) in
  if coeff b =? 0 then
    if coeff a =? 0 then Raise DecimalInvalidOperation
    else Raise DecimalDivisionByZero
  else if coeff a =? 0 then fix_ (mkDecimal sgn 0 (exp a - exp b))
  else
    let shift := len (coeff b) - len (coeff a) + prec + 1 in
    let e := exp a - exp b - shift in
    let num := if shift >=? 0 then coeff a * 10 ^ shift else coeff a in
    let den := if shift >=? 0 then coeff b else coeff b * 10 ^ (- shift) in
    let q := num / den in
    if negb (num mod den =? 0) then
      fix_ (mkDecimal sgn (if q mod 5 =? 0 then q + 1 else q) e)
    else
      let ideal := exp a - exp b in
      let '(q, e) := strip_to_ideal (Z.to_nat (ideal - e)) q e ideal in
      fix_ (mkDecimal sgn q e).

(** [Decimal(b) ** i] for integers [b > 0] and [i >= 0]: the exact power
    when its digits fit the precision, else the rounded one; the ideal
    exponent is 0. *)
Definition pow_int (b i : Z) : result Decimal :=
  fix_ (mkDecimal false (b ^ i) 0).

(** [int(d)]: truncation towards zero. *)
Definition to_int (d : Decimal) : Z :=
  let s := if sign d then -1 else 1 in
  if exp d >=? 0 then s * (coeff d * 10 ^ exp d)
  else s * (coeff d / 10 ^ (- exp d)).

(** [d > 0] and [d == 0] *)
Definition gt_zero (d : Decimal) : bool := negb (sign d) && negb (coeff d =? 0).
Definition is_zero (d : Decimal) : bool := coeff d =? 0.

Fixpoint zeros (n : nat) : string :=
  match n with
  | O => EmptyString
  | S k => String "0" (zeros k)
  end.

(** ["%+d" % n] *)
Definition plus_d (n : Z) : string :=
  (if n <? 0 then "-" else "+") ++ PyInt.str (Z.abs n).

(** [str(d)]: plain notation when the exponent is at most 0 and the
    number has fewer than six leading fractional zeros, scientific
    notation otherwise. *)
Definition to_str (d : Decimal) : string :=
  let ds := PyInt.str (coeff d) in
  let n := len (coeff d) in
  let leftdigits := exp d + n in
  let dotplace :=
    if (exp d <=? 0) && (leftdigits >? -6) then leftdigits else 1 in
  let '(intpart, fracpart) :=
    if dotplace <=? 0 then ("0", "." ++ zeros (Z.to_nat (- dotplace)) ++ ds)
    else if dotplace >=? n then (ds ++ zeros (Z.to_nat (dotplace - n)), "")
    else (take (Z.to_nat dotplace) ds, "." ++ drop (Z.to_nat dotplace) ds) in
  let e :=
    if leftdigits =? dotplace then ""
    else "E" ++ plus_d (leftdigits - dotplace) in
  (if sign d then "-" else "") ++ intpart ++ fracpart ++ e.

End PyDecimal.

(* ------------------------------------------------------------------ *)
(** ** The converter ([converter_utils.py]) *)

Import PyStr.

(** A [dict] with string keys, in insertion order, and [d.get(k, default)]. *)
Fixpoint dict_get {V : Type} (d : list (string * V)) (k : string) (default : V) : V :=
  match d with
  | [] => default
  | (k', v) :: rest => if String.eqb k' k then v else dict_get rest k default
  end.

Definition base_map : list (string * Z) :=
  [("Decimal", 10); ("Binary", 2); ("Octal", 8); ("Hexadecimal", 16)].

Definition get_base_value (base_name : string) : Z :=
  dict_get base_map base_name 10.

(** The loop over [fractional_part] in [validate_number]. *)
Fixpoint check_fraction (base_name fractional_part : string) : result unit :=
  match fractional_part with
  | EmptyString => Ok tt
  | String char rest =>
      if negb (isdigit char) &&
         negb (is_in (upper_char char)
                 (slice_to "ABCDEF" (get_base_value base_name - 10)))
      then Raise (ValueError "")
      else check_fraction base_name rest
  end.

(** The [try] block of [validate_number]. *)
Definition validate_try (number_str base_name : string) : result unit :=
  if contains_char "." number_str then
    '(integer_part, fractional_part) <- unpack2 (split "." number_str) ;;
    _ <- PyInt.int_of_str integer_part (get_base_value base_name) ;;
    check_fraction base_name fractional_part
  else
    _ <- PyInt.int_of_str number_str (get_base_value base_name) ;;
    Ok tt.

Definition validate_number (number_str base_name : string) : result (bool * string) :=
  match validate_try number_str base_name with
  | Ok _ => Ok (true, "")
  | Raise e =>
      if is_ValueError e
      then Ok (false, "Invalid " ++ lower base_name ++ " number")
      else Raise e
  end.

(** The loop over [enumerate(fractional_part, 1)]; [i] is the position of
    the first digit of [fractional_part]. *)
Fixpoint accumulate (from_base_value i : Z) (fractional_part : string)
    (decimal_value : PyDecimal.Decimal) : result PyDecimal.Decimal :=
  match fractional_part with
  | EmptyString => Ok decimal_value
  | String digit rest =>
      digit_value <-
        (if isdigit digit
         then PyInt.int_of_str (String digit EmptyString) 10
         else PyInt.int_of_str (String digit EmptyString) 16) ;;
      power <- PyDecimal.pow_int from_base_value i ;;
      term <- PyDecimal.div (PyDecimal.of_int digit_value) power ;;
      decimal_value <- PyDecimal.add decimal_value term ;;
      accumulate from_base_value (i + 1) rest decimal_value
  end.

(** One digit character: [str(d)] below ten, [chr(55 + d)] from ten on. *)
Definition digit_str (d : Z) : string :=
  if d <? 10 then PyInt.str d else String (chr (55 + d)) EmptyString.

(** [while temp > 0: ...] on the pair [(temp, integer_result)].  The loop
    is cut after [fuel] rounds; [integer_loop_exits] shows that the fuel
    given below always lets it reach [temp <= 0]. *)
Fixpoint integer_loop (fuel : nat) (to_base_value temp : Z)
    (integer_result : string) : Z * string :=
  match fuel with
  | O => (temp, integer_result)
  | S f =>
      if temp >? 0 then
        let remainder := temp mod to_base_value in
        integer_loop f to_base_value (temp / to_base_value)
          (digit_str remainder ++ integer_result)
      else (temp, integer_result)
  end.

Definition integer_part_result (to_base_value temp : Z) : string :=
  if temp =? 0 then "0"
  else snd (integer_loop (PyInt.fuel_of temp) to_base_value temp "").

(** State of the loop that produces the fractional digits: the loop
    variable [_] ([None] before the first round) and the two variables the
    body updates. *)
Record frac_state : Type := mkFrac {
  loop_var : option Z;
  fractional : PyDecimal.Decimal;
  fractional_result : string
}.

(** Body of [for _ in range(10)], up to the test for [break]. *)
Definition frac_body (to_base_value i : Z) (st : frac_state) : result frac_state :=
  fractional <- PyDecimal.mul (fractional st) (PyDecimal.of_int to_base_value) ;;
  let digit := PyDecimal.to_int fractional in
  let fractional_result := fractional_result st ++ digit_str digit in
  fractional <- PyDecimal.sub fractional (PyDecimal.of_int digit) ;;
  Ok (mkFrac (Some i) fractional fractional_result).

Fixpoint frac_loop (range : list Z) (to_base_value : Z) (st : frac_state)
    : result frac_state :=
  match range with
  | [] => Ok st
  | i :: rest =>
      st' <- frac_body to_base_value i st ;;
      if PyDecimal.is_zero (fractional st') then Ok st'
      else frac_loop rest to_base_value st'
  end.

Definition range (n : nat) : list Z := map Z.of_nat (seq 0 n).

Definition fractional_part_result (to_base_value : Z)
    (fractional : PyDecimal.Decimal) : result string :=
  if PyDecimal.gt_zero fractional then
    st <- frac_loop (range 10) to_base_value (mkFrac None fractional ".") ;;
    Ok (fractional_result st)
  else Ok "".

(** The [else] branch for a literal with a fractional part: lines 90-120. *)
Definition render_fraction (to_base_value : Z)
    (decimal_value : PyDecimal.Decimal) : result string :=
  let integer_result :=
    integer_part_result to_base_value (PyDecimal.to_int decimal_value) in
  fractional <-
    PyDecimal.sub decimal_value
      (PyDecimal.of_int (PyDecimal.to_int decimal_value)) ;;
  fractional_result <- fractional_part_result to_base_value fractional ;;
  Ok (integer_result ++ fractional_result).

(** The value of a literal with a fractional part: lines 76-85, the split,
    the integer part and the loop over the fractional digits. *)
Definition fraction_value (number_str : string) (from_base_value : Z)
    : result PyDecimal.Decimal :=
  '(integer_part, fractional_part) <- unpack2 (split "." number_str) ;;
  n <- PyInt.int_of_str integer_part from_base_value ;;
  accumulate from_base_value 1 fractional_part (PyDecimal.of_int n).

(** The [try] block of [convert_number_logic]. *)
Definition convert_try (number_str from_base to_base : string) : result string :=
  let from_base_value := get_base_value from_base in
  let to_base_value := get_base_value to_base in
  if contains_char "." number_str then
    decimal_value <- fraction_value number_str from_base_value ;;
    if String.eqb to_base "Decimal" then Ok (PyDecimal.to_str decimal_value)
    else render_fraction to_base_value decimal_value
  else
    decimal_value <- PyInt.int_of_str number_str from_base_value ;;
    if String.eqb to_base "Decimal" then Ok (PyInt.str decimal_value)
    else if String.eqb to_base "Binary"
      then Ok (slice_from (PyInt.bin decimal_value) 2)
    else if String.eqb to_base "Octal"
      then Ok (slice_from (PyInt.oct decimal_value) 2)
    else if String.eqb to_base "Hexadecimal"
      then Ok (upper (slice_from (PyInt.hex decimal_value) 2))
    else Ok (PyInt.str decimal_value).

Definition failure_message (number_str from_base to_base : string) : string :=
  "Failed to convert " ++ number_str ++ " from " ++ from_base ++ " to " ++ to_base.

Definition convert_number_logic (number_str from_base to_base : string)
    : result string :=
  match convert_try number_str from_base to_base with
  | Ok r => Ok r
  | Raise e =>
      Raise (ValueErrorFrom (failure_message number_str from_base to_base) e)
  end.

Definition prefixes : list (string * string) :=
  [("Binary", "0b"); ("Octal", "0o"); ("Hexadecimal", "0x"); ("Decimal", "")].

Definition get_prefixed_result (result base : string) : string :=
  dict_get prefixes base "" ++ result.

(* ------------------------------------------------------------------ *)
(** ** The specification's vocabulary *)

(** The four bases of the specification, with their names and radices. *)
Inductive Base : Type := Binary | Octal | Decimal | Hexadecimal.

Definition base_name (b : Base) : string :=
  match b with
  | Binary => "Binary"
  | Octal => "Octal"
  | Decimal => "Decimal"
  | Hexadecimal => "Hexadecimal"
  end.


(** The digit of the specification: a decimal digit character below ten,
    the letter ['A' + (r - 10)] from ten on. *)
Definition spec_digit (r : Z) : ascii :=
  if r <? 10 then chr (48 + r) else chr (65 + (r - 10)).

(** The specification's [renderInBase], in its words: repeated division,
    the remainders read from the last to the first; zero renders as ["0"].
    This definition is independent of the builtins the code calls. *)
Fixpoint render_digits (fuel : nat) (rdx n : Z) : string :=
  match fuel with
  | O => EmptyString
  | S f =>
      if n =? 0 then EmptyString
      else render_digits f rdx (n / rdx) ++ String (spec_digit (n mod rdx)) EmptyString
  end.

Definition renderInBase (n rdx : Z) : string :=
  if n =? 0 then "0" else render_digits (PyInt.fuel_of n) rdx n.



(** U+00B2, SUPERSCRIPT TWO. *)
Definition superscript_two : ascii := "178"%char.

(** The radices of the four bases. *)
Definition known_radix (r : Z) : Prop := r = 2 \/ r = 8 \/ r = 10 \/ r = 16.

(** A character that is a digit of the radix, as the specification
    renders it. *)
Definition render_char (r : Z) (c : ascii) : Prop :=
  exists d, 0 <= d < r /\ c = spec_digit d.

Fixpoint chars_all (P : ascii -> Prop) (s : string) : Prop :=
  match s with
  | EmptyString => True
  | String c r => P c /\ chars_all P r
  end.

(** Case analysis on a digit value below sixteen. *)
Ltac by_digit d :=
  let H := fresh "Hd" in
  assert (H : d = 0 \/ d = 1 \/ d = 2 \/ d = 3 \/ d = 4 \/ d = 5 \/ d = 6 \/
              d = 7 \/ d = 8 \/ d = 9 \/ d = 10 \/ d = 11 \/ d = 12 \/
              d = 13 \/ d = 14 \/ d = 15) by lia;
  repeat (destruct H as [H | H]); subst d.

(* ------------------------------------------------------------------ *)
(** ** The history file ([save_to_history], [read_history]) *)

Definition LF : ascii := "010"%char.
Definition CR : ascii := "013"%char.

(** The history file as the two functions meet it: not there, there with
    its text, or raising an [IOError] whenever it is opened.  The text is
    what a POSIX system stores: writing leaves ['\n'] as it is. *)
Inductive file : Type :=
| Absent
| Present (content : string)
| Unavailable.

Definition history_line (input_val from_base result to_base : string) : string :=
  input_val ++ " (" ++ from_base ++ ") -> " ++ result ++ " (" ++ to_base ++ ")"
  ++ String LF "".

(** Opening for appending creates a missing file; an [IOError] is logged
    and nothing is written. *)
Definition save_to_history (history_file : file)
    (input_val from_base result to_base : string) : file :=
  let line := history_line input_val from_base result to_base in
  match history_file with
  | Absent => Present line
  | Present content => Present (content ++ line)
  | Unavailable => Unavailable
  end.

(** Reading in text mode: ['\r\n'] and a lone ['\r'] become ['\n']. *)
Fixpoint translate_newlines (s : string) : string :=
  match s with
  | EmptyString => EmptyString
  | String c r =>
      if Ascii.eqb c CR then
        String LF
          match r with
          | String c2 r2 =>
              if Ascii.eqb c2 LF then translate_newlines r2
              else translate_newlines r
          | EmptyString => EmptyString
          end
      else String c (translate_newlines r)
  end.

(** The lines of a text, each with its ['\n']; a last line without one is
    kept as it is, and the empty text has no line. *)
Fixpoint split_lines (s : string) : list string :=
  match s with
  | EmptyString => []
  | String c r =>
      if Ascii.eqb c LF then String LF "" :: split_lines r
      else match split_lines r with
           | [] => [String c ""]
           | l :: ls => String c l :: ls
           end
  end.

(** [f.readlines()] *)
Definition readlines (content : string) : list string :=
  split_lines (translate_newlines content).

(** [xs[-n:]] for [n > 0] *)
Definition last_n {A : Type} (n : nat) (xs : list A) : list A :=
  skipn (List.length xs - n) xs.

Definition read_history (history_file : file) : list string :=
  match history_file with
  | Present content => last_n 5 (readlines content)
  | Absent => []
  | Unavailable => []
  end.

(** A text in which every line is complete: empty, or ending in ['\n']. *)
Fixpoint terminated (s : string) : bool :=
  match s with
  | EmptyString => true
  | String c EmptyString => Ascii.eqb c LF
  | String _ r => terminated r
  end.

(** No line break inside: neither ['\n'] nor ['\r']. *)
Definition one_line (s : string) : bool :=
  negb (contains_char LF s) && negb (contains_char CR s).

(** The lines of a file, none for a file that cannot be read. *)
Definition file_lines (f : file) : list string :=
  match f with
  | Present content => readlines content
  | Absent => []
  | Unavailable => []
  end.

(** A file whose lines are all complete. *)
Definition well_formed (f : file) : bool :=
  match f with
  | Present content => terminated content
  | Absent => true
  | Unavailable => false
  end.

(** A record of the history: input, source base, result, target base. *)
Definition record : Type := (string * string * string * string)%type.

Definition record_line (r : record) : string :=
  let '(input_val, from_base, result, to_base) := r in
  history_line input_val from_base result to_base.

Definition record_one_line (r : record) : bool :=
  let '(input_val, from_base, result, to_base) := r in
  one_line input_val && one_line from_base && one_line result && one_line to_base.

(** One call of [save_to_history] per record, in order. *)
Definition save_all (f : file) (records : list record) : file :=
  fold_left
    (fun f r =>
       let '(input_val, from_base, result, to_base) := r in
       save_to_history f input_val from_base result to_base)
    records f.

(* ------------------------------------------------------------------ *)
(** ** The window ([number_converter_ui.py]) *)

(** [detect_input_base]: the base a prefix names, and the rest. *)
Definition detect_input_base (number_str : string) : option string * string :=
  if starts_with "0x" number_str then (Some "Hexadecimal", slice_from number_str 2)
  else if starts_with "0b" number_str then (Some "Binary", slice_from number_str 2)
  else if starts_with "0o" number_str then (Some "Octal", slice_from number_str 2)
  else (None, number_str).

(** [s.lstrip(c)] for a one-character argument. *)
Fixpoint lstrip_char (c : ascii) (s : string) : string :=
  match s with
  | EmptyString => EmptyString
  | String a r => if Ascii.eqb a c then lstrip_char c r else s
  end.

(** [s[i:j]] for [0 <= i <= j]. *)
Definition slice (s : string) (i j : nat) : string := take (j - i) (drop i s).

(** The two helpers inside [interpolate_color]. *)
Definition hex_to_rgb (hex_color : string) : result (Z * Z * Z) :=
  let hex_color := lstrip_char "#" hex_color in
  r <- PyInt.int_of_str (slice hex_color 0 2) 16 ;;
  g <- PyInt.int_of_str (slice hex_color 2 4) 16 ;;
  b <- PyInt.int_of_str (slice hex_color 4 6) 16 ;;
  Ok (r, g, b).

(** ['%02x' % v]: lower-case hexadecimal, padded with a zero to two
    characters; a sign counts as a character. *)
Definition format_02x (v : Z) : string :=
  let ds := PyInt.digits (PyInt.fuel_of (Z.abs v)) 16 (Z.abs v) in
  if v <? 0 then "-" ++ ds
  else if (String.length ds <? 2)%nat then "0" ++ ds
  else ds.

Definition rgb_to_hex (rgb : Z * Z * Z) : string :=
  let '(r, g, b) := rgb in
  "#" ++ format_02x r ++ format_02x g ++ format_02x b.

(** [c.isspace()] *)
Definition isspace (c : ascii) : bool :=
  let n := ord c in
  between 9 n 13 || between 28 n 32 || (n =? 133) || (n =? 160).

Fixpoint strip_left (s : string) : string :=
  match s with
  | EmptyString => EmptyString
  | String c r => if isspace c then strip_left r else s
  end.

Fixpoint strip_right (s : string) : string :=
  match s with
  | EmptyString => EmptyString
  | String c r =>
      match strip_right r with
      | EmptyString => if isspace c then EmptyString else String c EmptyString
      | r' => String c r'
      end
  end.

(** [s.strip()] *)
Definition strip (s : string) : string := strip_right (strip_left s).

(** [x in xs] for a list of strings. *)
Definition mem (x : string) (xs : list string) : bool :=
  existsb (String.eqb x) xs.

(** The update of [config["recent_bases"]] for one base: put in front if
    missing, then keep four. *)
Definition update_recent (recent_bases : list string) (base : string) : list string :=
  if mem base recent_bases then recent_bases
  else firstn 4 (base :: recent_bases).

(** [str(e)] of an exception built with one message. *)
Definition exception_str (e : Exception) : string :=
  match e with
  | ValueError msg => msg
  | ValueErrorFrom msg _ => msg
  | DecimalOverflow => "[<class 'decimal.Overflow'>]"
  | DecimalDivisionByZero => "[<class 'decimal.DivisionByZero'>]"
  | DecimalInvalidOperation => "[<class 'decimal.InvalidOperation'>]"
  end.

(** What [convert_number] reads and writes: the variables of the widgets,
    the values offered by the two comboboxes, the list of recent bases in
    the configuration, the history file and the text of the history box.
    The logger and the configuration file that [save_config] writes are
    not part of the state. *)
Record window : Type := mkWindow {
  input_var : string;
  from_base_var : string;
  to_base_var : string;
  result_var : string;
  status_var : string;
  recent_bases : list string;
  from_combo_values : list string;
  to_combo_values : list string;
  history_file : file;
  history_box : string
}.

Definition set_status (w : window) (s : string) : window :=
  mkWindow (input_var w) (from_base_var w) (to_base_var w) (result_var w) s
    (recent_bases w) (from_combo_values w) (to_combo_values w)
    (history_file w) (history_box w).

Definition set_result (w : window) (s : string) : window :=
  mkWindow (input_var w) (from_base_var w) (to_base_var w) s (status_var w)
    (recent_bases w) (from_combo_values w) (to_combo_values w)
    (history_file w) (history_box w).

Definition set_from_base (w : window) (s : string) : window :=
  mkWindow (input_var w) s (to_base_var w) (result_var w) (status_var w)
    (recent_bases w) (from_combo_values w) (to_combo_values w)
    (history_file w) (history_box w).

Definition set_history_file (w : window) (f : file) : window :=
  mkWindow (input_var w) (from_base_var w) (to_base_var w) (result_var w)
    (status_var w) (recent_bases w) (from_combo_values w) (to_combo_values w)
    f (history_box w).

(** [update_history]: the box shows the lines [read_history] returns. *)
Definition update_history (w : window) : window :=
  mkWindow (input_var w) (from_base_var w) (to_base_var w) (result_var w)
    (status_var w) (recent_bases w) (from_combo_values w) (to_combo_values w)
    (history_file w) (String.concat "" (read_history (history_file w))).

(** The two [if ... not in self.config["recent_bases"]] blocks. *)
Definition update_recent_from (w : window) (from_base : string) : window :=
  if mem from_base (recent_bases w) then w
  else
    let rb := firstn 4 (from_base :: recent_bases w) in
    mkWindow (input_var w) (from_base_var w) (to_base_var w) (result_var w)
      (status_var w) rb rb (to_combo_values w) (history_file w) (history_box w).

Definition update_recent_to (w : window) (to_base : string) : window :=
  if mem to_base (recent_bases w) then w
  else
    let rb := firstn 4 (to_base :: recent_bases w) in
    mkWindow (input_var w) (from_base_var w) (to_base_var w) (result_var w)
      (status_var w) rb (from_combo_values w) rb (history_file w) (history_box w).

(** [convert_number].  [validate_number] is called outside the [try]
    block: an exception from it would leave the handler. *)
Definition convert_number (w : window) : result window :=
  let input_raw := strip (input_var w) in
  if (String.length input_raw =? 0)%nat then
    Ok (set_status w "Error: No input provided")
  else
    let '(auto_base, number) := detect_input_base input_raw in
    let w := match auto_base with
             | Some b => set_from_base w b
             | None => w
             end in
    let number := match auto_base with
                  | Some _ => number
                  | None => input_raw
                  end in
    let from_base := from_base_var w in
    let to_base := to_base_var w in
    '(valid, msg) <- validate_number number from_base ;;
    if negb valid then
      Ok (set_result (set_status w ("Error: " ++ msg)) "")
    else
      match convert_number_logic number from_base to_base with
      | Ok result =>
          let prefixed := get_prefixed_result result to_base in
          let w := set_result w prefixed in
          let w := set_status w "Converted successfully" in
          let w := set_history_file w
                     (save_to_history (history_file w) number from_base prefixed to_base) in
          let w := update_history w in
          let w := update_recent_from w from_base in
          let w := update_recent_to w to_base in
          Ok w
      | Raise e =>
          Ok (set_result (set_status w ("Error: " ++ exception_str e)) "")
      end.

(** [swap_bases] *)
Definition swap_bases (w : window) : result window :=
  let current_from := from_base_var w in
  let current_to := to_base_var w in
  let w := set_from_base w current_to in
  let w := mkWindow (input_var w) (from_base_var w) current_from (result_var w)
             (status_var w) (recent_bases w) (from_combo_values w)
             (to_combo_values w) (history_file w) (history_box w) in
  convert_number w.

(** What the round trip of one colour channel needs of ['%02x' % v]: two
    characters, the first not ['#'], that [int(.., 16)] reads back as [v]. *)
Definition channel_round_trip (v : Z) : bool :=
  match format_02x v with
  | String c1 (String c2 EmptyString) =>
      negb (Ascii.eqb c1 "#") &&
      match PyInt.int_of_str (String c1 (String c2 EmptyString)) 16 with
      | Ok v' => v' =? v
      | Raise _ => false
      end
  | _ => false
  end.

(* ------------------------------------------------------------------ *)
(** ** Checks of the embedding on concrete inputs *)

Example int_of_str_examples :
  PyInt.int_of_str "0x_1f" 16 = Ok 31 /\
  PyInt.int_of_str "0b1" 16 = Ok 177 /\
  PyInt.int_of_str "-0b1" 2 = Ok (-1) /\
  PyInt.int_of_str " 1_0 " 10 = Ok 10 /\
  PyInt.int_of_str "1010" 2 = Ok 10 /\
  (exists e, PyInt.int_of_str "_1" 10 = Raise e) /\
  (exists e, PyInt.int_of_str "1__0" 10 = Raise e) /\
  (exists e, PyInt.int_of_str "1_" 10 = Raise e) /\
  (exists e, PyInt.int_of_str "0x" 16 = Raise e) /\
  (exists e, PyInt.int_of_str "+ 1" 10 = Raise e) /\
  (exists e, PyInt.int_of_str "" 10 = Raise e) /\
  (exists e, PyInt.int_of_str "102" 2 = Raise e).
Proof. vm_compute. repeat split; eauto. Qed.

Example format_examples :
  PyInt.bin (-5) = "-0b101" /\ PyInt.hex 255 = "0xff" /\
  PyInt.oct 8 = "0o10" /\ PyInt.str 0 = "0" /\ PyInt.str 1234567890 = "1234567890".
Proof. vm_compute. repeat split. Qed.

Example decimal_examples :
  (r <- PyDecimal.pow_int 10 25 ;; Ok (PyDecimal.to_str r)) = Ok "1.0000000000000000000E+25" /\
  (r <- PyDecimal.pow_int 2 70 ;; Ok (PyDecimal.to_str r)) = Ok "1.1805916207174113034E+21" /\
  (p <- PyDecimal.pow_int 10 25 ;; r <- PyDecimal.div (PyDecimal.of_int 0) p ;; Ok (PyDecimal.to_str r)) = Ok "0.000000" /\
  (p <- PyDecimal.pow_int 2 30 ;; r <- PyDecimal.div (PyDecimal.of_int 1) p ;; Ok (PyDecimal.to_str r)) = Ok "9.3132257461547851562E-10" /\
  (r <- PyDecimal.div (PyDecimal.of_int 15) (PyDecimal.of_int 16) ;; Ok (PyDecimal.to_str r)) = Ok "0.9375" /\
  (p <- PyDecimal.div (PyDecimal.of_int 5) (PyDecimal.of_int 10) ;; r <- PyDecimal.add (PyDecimal.of_int 12345678901234567890123456789) p ;; Ok (PyDecimal.to_str r)) = Ok "1.2345678901234567890E+28" /\
  (r <- PyDecimal.add (PyDecimal.mkDecimal false 0 (-30)) (PyDecimal.of_int 12) ;; Ok (PyDecimal.to_str r)) = Ok "12.000000000000000000" /\
  (r <- PyDecimal.mul (PyDecimal.mkDecimal false 99999999999999999999 (-20)) (PyDecimal.of_int 2) ;; Ok (PyDecimal.to_str r)) = Ok "2.0000000000000000000" /\
  PyDecimal.to_int (PyDecimal.mkDecimal true 25 (-1)) = -2 /\
  PyDecimal.to_str (PyDecimal.mkDecimal false 1 (-7)) = "1E-7" /\
  PyDecimal.to_str (PyDecimal.mkDecimal false 1 (-6)) = "0.000001" /\
  PyDecimal.to_str (PyDecimal.mkDecimal true 0 0) = "-0".
Proof. vm_compute. repeat split. Qed.

Example converter_examples :
  convert_number_logic "1010" "Binary" "Decimal" = Ok "10" /\
  convert_number_logic "1010" "Binary" "Hexadecimal" = Ok "A" /\
  convert_number_logic "12" "Octal" "Binary" = Ok "1010" /\
  convert_number_logic "1010.101" "Binary" "Decimal" = Ok "10.625" /\
  convert_number_logic "1010.101" "Binary" "Octal" = Ok "12.5" /\
  convert_number_logic "1010.101" "Binary" "Hexadecimal" = Ok "A.A" /\
  convert_number_logic "10.625" "Decimal" "Binary" = Ok "1010.101" /\
  convert_number_logic "10.625" "Decimal" "Hexadecimal" = Ok "A.A" /\
  convert_number_logic "0.1" "Decimal" "Binary" = Ok "0.0001100110" /\
  convert_number_logic "0.00000001" "Decimal" "Decimal" = Ok "1E-8" /\
  convert_number_logic "-101" "Binary" "Binary" = Ok "b101" /\
  convert_number_logic "0.99999999999999999999" "Decimal" "Binary" = Ok "0.2" /\
  convert_number_logic "10." "Decimal" "Binary" = Ok "1010" /\
  convert_number_logic "-3.5" "Decimal" "Binary" = Ok "" /\
  validate_number "102" "Binary" = Ok (false, "Invalid binary number") /\
  validate_number "FF" "Hexadecimal" = Ok (true, "") /\
  validate_number "10.2" "Binary" = Ok (true, "") /\
  validate_number "1.A" "Octal" = Ok (true, "") /\
  validate_number "1.E" "Octal" = Ok (false, "Invalid octal number") /\
  validate_number "10." "Decimal" = Ok (true, "") /\
  validate_number ".5" "Decimal" = Ok (false, "Invalid decimal number") /\
  validate_number "1.2.3" "Decimal" = Ok (false, "Invalid decimal number") /\
  validate_number ("1." ++ String superscript_two EmptyString) "Decimal" = Ok (true, "") /\
  (exists e, convert_number_logic ("1." ++ String superscript_two EmptyString) "Decimal" "Binary" = Raise e) /\
  get_prefixed_result "A" "Hexadecimal" = "0xA".
Proof. vm_compute. repeat split; eauto. Qed.

(** The assertions of [test_converter.py] on the embedded functions, the
    history tests and the last assertion of
    [test_convert_number_logic_floating] apart (that one is treated with
    the literals with a fractional part below). *)
Example test_converter :
  get_base_value "Decimal" = 10 /\
  get_base_value "Binary" = 2 /\
  get_base_value "Octal" = 8 /\
  get_base_value "Hexadecimal" = 16 /\
  get_base_value "Unknown" = 10 /\
  validate_number "1010" "Binary" = Ok (true, "") /\
  validate_number "755" "Octal" = Ok (true, "") /\
  validate_number "123" "Decimal" = Ok (true, "") /\
  validate_number "FF" "Hexadecimal" = Ok (true, "") /\
  validate_number "102" "Binary" = Ok (false, "Invalid binary number") /\
  validate_number "89" "Octal" = Ok (false, "Invalid octal number") /\
  validate_number "GH" "Hexadecimal" = Ok (false, "Invalid hexadecimal number") /\
  validate_number "1010.101" "Binary" = Ok (true, "") /\
  validate_number "755.7" "Octal" = Ok (true, "") /\
  validate_number "123.456" "Decimal" = Ok (true, "") /\
  validate_number "FF.A" "Hexadecimal" = Ok (true, "") /\
  validate_number "102.3" "Binary" = Ok (false, "Invalid binary number") /\
  validate_number "89.9" "Octal" = Ok (false, "Invalid octal number") /\
  convert_number_logic "1010" "Binary" "Decimal" = Ok "10" /\
  convert_number_logic "1010" "Binary" "Octal" = Ok "12" /\
  convert_number_logic "1010" "Binary" "Hexadecimal" = Ok "A" /\
  convert_number_logic "10" "Decimal" "Binary" = Ok "1010" /\
  convert_number_logic "10" "Decimal" "Octal" = Ok "12" /\
  convert_number_logic "10" "Decimal" "Hexadecimal" = Ok "A" /\
  convert_number_logic "12" "Octal" "Decimal" = Ok "10" /\
  convert_number_logic "12" "Octal" "Binary" = Ok "1010" /\
  convert_number_logic "12" "Octal" "Hexadecimal" = Ok "A" /\
  convert_number_logic "A" "Hexadecimal" "Decimal" = Ok "10" /\
  convert_number_logic "A" "Hexadecimal" "Binary" = Ok "1010" /\
  convert_number_logic "A" "Hexadecimal" "Octal" = Ok "12" /\
  convert_number_logic "1010.101" "Binary" "Decimal" = Ok "10.625" /\
  convert_number_logic "1010.101" "Binary" "Octal" = Ok "12.5" /\
  convert_number_logic "1010.101" "Binary" "Hexadecimal" = Ok "A.A" /\
  convert_number_logic "10.625" "Decimal" "Binary" = Ok "1010.101" /\
  convert_number_logic "10.625" "Decimal" "Octal" = Ok "12.5" /\
  convert_number_logic "10.625" "Decimal" "Hexadecimal" = Ok "A.A" /\
  get_prefixed_result "1010" "Binary" = "0b1010" /\
  get_prefixed_result "12" "Octal" = "0o12" /\
  get_prefixed_result "A" "Hexadecimal" = "0xA" /\
  get_prefixed_result "10" "Decimal" = "10".
Proof. vm_compute. repeat split. Qed.

(* ------------------------------------------------------------------ *)
(** ** Strings *)

Lemma append_nil_r (s : string) : s ++ "" = s.
Proof. induction s as [|c s IH]; simpl; [reflexivity | now rewrite IH]. Qed.

Lemma append_assoc (a b c : string) : (a ++ b) ++ c = a ++ (b ++ c).
Proof. induction a as [|x a IH]; simpl; [reflexivity | now rewrite IH]. Qed.

Lemma length_append (a b : string) :
  String.length (a ++ b) = (String.length a + String.length b)%nat.
Proof. induction a as [|x a IH]; simpl; [reflexivity | now rewrite IH]. Qed.

Lemma contains_char_append (c : ascii) (a b : string) :
  contains_char c (a ++ b) = contains_char c a || contains_char c b.
Proof.
  induction a as [|x a IH]; simpl; [reflexivity|].
  rewrite IH. now rewrite orb_assoc.
Qed.

Lemma count_char_append (c : ascii) (a b : string) :
  count_char c (a ++ b) = (count_char c a + count_char c b)%nat.
Proof. induction a as [|x a IH]; simpl; [reflexivity | rewrite IH; lia]. Qed.

Lemma contains_char_count (c : ascii) (s : string) :
  contains_char c s = negb (count_char c s =? 0)%nat.
Proof.
  induction s as [|x s IH]; simpl; [reflexivity|].
  destruct (Ascii.eqb x c); simpl; [reflexivity | exact IH].
Qed.

Lemma split_length (c : ascii) (s : string) :
  List.length (split c s) = S (count_char c s).
Proof.
  induction s as [|x s IH]; simpl; [reflexivity|].
  destruct (Ascii.eqb x c); simpl; [now rewrite IH|].
  destruct (split c s) as [|p ps]; simpl in *; [discriminate | exact IH].
Qed.

(** A string without the separator is a single piece. *)
Lemma split_none (c : ascii) (s : string) :
  contains_char c s = false -> split c s = [s].
Proof.
  induction s as [|x s IH]; simpl; [reflexivity|].
  destruct (Ascii.eqb x c); simpl; [discriminate|].
  intros H. now rewrite (IH H).
Qed.


(** Two pieces: exactly one separator, between them. *)
Lemma split_two (c : ascii) (s a b : string) :
  split c s = [a; b] ->
  s = a ++ String c b /\ contains_char c a = false /\ contains_char c b = false.
Proof.
  revert a b. induction s as [|x s IH]; simpl; intros a b H; [discriminate|].
  destruct (Ascii.eqb_spec x c) as [->|Hne].
  - injection H as <- Hs. simpl.
    assert (Hc : count_char c s = O).
    { pose proof (split_length c s) as L. rewrite Hs in L. simpl in L. lia. }
    assert (Hn : contains_char c s = false)
      by (rewrite contains_char_count, Hc; reflexivity).
    rewrite (split_none _ _ Hn) in Hs. injection Hs as ->. auto.
  - destruct (split c s) as [|p ps] eqn:E; [discriminate|].
    injection H as <- ->.
    destruct (IH p b eq_refl) as (-> & Ha & Hb).
    simpl. apply Ascii.eqb_neq in Hne. rewrite Hne. auto.
Qed.


(* ------------------------------------------------------------------ *)
(** ** Digits *)




Lemma spec_digit_not_dot (d : Z) :
  0 <= d < 16 -> Ascii.eqb (spec_digit d) "." = false.
Proof. intros H. by_digit d; reflexivity. Qed.


Lemma digit_str_spec (d : Z) :
  0 <= d < 16 -> digit_str d = String (spec_digit d) "".
Proof. intros H. by_digit d; reflexivity. Qed.



Lemma known_radix_bounds (r : Z) : known_radix r -> 2 <= r <= 16.
Proof. unfold known_radix. lia. Qed.


Lemma get_base_value_known (name : string) : known_radix (get_base_value name).
Proof.
  unfold known_radix, get_base_value, base_map. cbn [dict_get].
  repeat match goal with
         | |- context [String.eqb ?a ?b] => destruct (String.eqb a b)
         end; auto.
Qed.



(* ------------------------------------------------------------------ *)
(** ** Rendering and parsing integers *)

Lemma chars_all_append (P : ascii -> Prop) (a b : string) :
  chars_all P a -> chars_all P b -> chars_all P (a ++ b).
Proof. induction a as [|x a IH]; simpl; [auto | intros [? ?] ?; auto]. Qed.

Lemma fuel_of_spec (n : Z) : 0 < n -> n < 2 ^ Z.of_nat (PyInt.fuel_of n).
Proof.
  intros H. unfold PyInt.fuel_of.
  rewrite Nat2Z.inj_succ, Z2Nat.id by apply Z.log2_nonneg.
  apply Z.log2_spec, H.
Qed.

Lemma div_radix_bound (f : nat) (r n : Z) :
  2 <= r -> 0 <= n < 2 ^ Z.of_nat (S f) -> 0 <= n / r < 2 ^ Z.of_nat f.
Proof.
  intros Hr [H0 H]. rewrite Nat2Z.inj_succ, Z.pow_succ_r in H by lia.
  split; [apply Z.div_pos; lia|].
  apply Z.div_lt_upper_bound; [lia|].
  assert (0 < 2 ^ Z.of_nat f) by (apply Z.pow_pos_nonneg; lia). nia.
Qed.


Lemma render_digits_chars (f : nat) (r n : Z) :
  0 < r -> chars_all (render_char r) (render_digits f r n).
Proof.
  intros Hr. revert n. induction f as [|f IH]; intros n; simpl; [exact I|].
  destruct (n =? 0); simpl; [exact I|].
  apply chars_all_append; [apply IH|]. simpl. split; [|exact I].
  exists (n mod r). split; [apply Z.mod_pos_bound, Hr | reflexivity].
Qed.

Lemma renderInBase_chars (n r : Z) :
  0 < r -> chars_all (render_char r) (renderInBase n r).
Proof.
  intros Hr. unfold renderInBase. destruct (n =? 0).
  - simpl. split; [|exact I]. exists 0. split; [lia | reflexivity].
  - apply render_digits_chars, Hr.
Qed.









(** *** The builtins print the specification's rendering *)

Section Printing.

Variable g : string -> string.
Variable r : Z.
Hypothesis g_append : forall a b, g (a ++ b) = g a ++ g b.
Hypothesis g_digit :
  forall d, 0 <= d < r -> g (String (PyInt.digit_char d) "") = String (spec_digit d) "".
Hypothesis r_ge_2 : 2 <= r.



End Printing.





(** *** A valid integer literal contains no ['.'] *)

Lemma is_space_not_dot (c : ascii) :
  PyInt.is_space c = true -> Ascii.eqb c "." = false.
Proof.
  intros H. destruct (Ascii.eqb_spec c "."); [subst; discriminate | reflexivity].
Qed.

Lemma digit_value_not_dot (c : ascii) (d : Z) :
  PyInt.digit_value c = Some d -> Ascii.eqb c "." = false.
Proof.
  intros H. destruct (Ascii.eqb_spec c "."); [subst; discriminate | reflexivity].
Qed.

Lemma prefix_letter_not_dot (r : Z) (c : ascii) :
  PyInt.is_prefix_letter r c = true -> Ascii.eqb c "." = false.
Proof.
  intros H. destruct (Ascii.eqb_spec c "."); [subst | reflexivity].
  unfold PyInt.is_prefix_letter in H. simpl in H.
  now rewrite !andb_false_r in H.
Qed.

Lemma lstrip_dot (s : string) :
  contains_char "." (PyInt.lstrip s) = contains_char "." s.
Proof.
  induction s as [|c s IH]; simpl; [reflexivity|].
  destruct (PyInt.is_space c) eqn:E; [|reflexivity].
  now rewrite (is_space_not_dot _ E).
Qed.

Lemma take_sign_dot (s : string) :
  contains_char "." (snd (PyInt.take_sign s)) = contains_char "." s.
Proof.
  destruct s as [|c s]; simpl; [reflexivity|].
  destruct (Ascii.eqb_spec c "+") as [->|]; [reflexivity|].
  destruct (Ascii.eqb_spec c "-") as [->|]; reflexivity.
Qed.

Lemma skip_underscore_dot (s : string) :
  contains_char "." (PyInt.skip_underscore s) = contains_char "." s.
Proof.
  destruct s as [|c s]; simpl; [reflexivity|].
  destruct (Ascii.eqb_spec c "_") as [->|]; reflexivity.
Qed.

Lemma take_prefix_dot (r : Z) (s : string) :
  contains_char "." (PyInt.take_prefix r s) = contains_char "." s.
Proof.
  destruct s as [|z [|c s]]; try reflexivity.
  cbn [PyInt.take_prefix].
  destruct (Ascii.eqb_spec z "0") as [->|]; [|reflexivity].
  destruct (PyInt.is_prefix_letter r c) eqn:E; [|reflexivity].
  cbn [andb]. rewrite skip_underscore_dot. simpl.
  now rewrite (prefix_letter_not_dot _ _ E).
Qed.

Lemma scan_dot (b : Z) (s : string) (prev : bool) (acc v : Z) (rest : string) :
  PyInt.scan b s prev acc = Some (v, rest) ->
  contains_char "." s = contains_char "." rest.
Proof.
  revert prev acc. induction s as [|c s IH]; intros prev acc; simpl.
  - destruct prev; [discriminate|]. now intros [= _ <-].
  - destruct (Ascii.eqb_spec c "_") as [->|_].
    + destruct prev; [discriminate|]. intros H. simpl. now apply IH in H.
    + destruct (PyInt.digit_value c) as [d|] eqn:Ed.
      * destruct (d <? b).
        -- intros H. rewrite (digit_value_not_dot _ _ Ed). now apply IH in H.
        -- destruct prev; [discriminate|]. now intros [= _ <-].
      * destruct prev; [discriminate|]. now intros [= _ <-].
Qed.

Lemma int_of_str_no_dot (s : string) (b v : Z) :
  PyInt.int_of_str s b = Ok v -> contains_char "." s = false.
Proof.
  unfold PyInt.int_of_str.
  pose proof (take_sign_dot (PyInt.lstrip s)) as Hs.
  destruct (PyInt.take_sign (PyInt.lstrip s)) as [sg s2]. simpl in Hs.
  destruct (starts_with "_" (PyInt.take_prefix b s2)); [discriminate|].
  destruct (PyInt.scan b (PyInt.take_prefix b s2) false 0) as [[w rest]|] eqn:Es;
    [|discriminate].
  destruct (_ =? _)%nat; [discriminate|].
  destruct (PyInt.lstrip rest) eqn:El; [|discriminate].
  intros _. apply scan_dot in Es.
  rewrite <- lstrip_dot, <- Hs, <- take_prefix_dot with (r := b), Es.
  now rewrite <- lstrip_dot, El.
Qed.

Lemma int_of_str_empty (b : Z) : exists e, PyInt.int_of_str "" b = Raise e.
Proof. eexists. reflexivity. Qed.

(* ------------------------------------------------------------------ *)
(** ** The validator *)

Lemma validate_true (number_str base_name : string) :
  validate_number number_str base_name = Ok (true, "") <->
  validate_try number_str base_name = Ok tt.
Proof.
  unfold validate_number.
  destruct (validate_try number_str base_name) as [[]|e].
  - tauto.
  - destruct (is_ValueError e); split; discriminate.
Qed.

Lemma int_of_str_raises_ValueError (s : string) (b : Z) (e : Exception) :
  PyInt.int_of_str s b = Raise e -> is_ValueError e = true.
Proof.
  unfold PyInt.int_of_str.
  destruct (PyInt.take_sign (PyInt.lstrip s)) as [sg s2].
  repeat match goal with
         | |- context [if ?c then _ else _] => destruct c
         | |- context [match ?x with _ => _ end] => destruct x
         end; intros [= <-]; reflexivity || discriminate.
Qed.

Lemma check_fraction_raises_ValueError (b fp : string) (e : Exception) :
  check_fraction b fp = Raise e -> is_ValueError e = true.
Proof.
  induction fp as [|c fp IH]; simpl; [discriminate|].
  destruct (_ && _); [now intros [= <-] | exact IH].
Qed.

(** Whatever the [try] block of [validate_number] raises is a
    [ValueError]: the function always returns its pair. *)
Lemma validate_try_raises_ValueError (s b : string) (e : Exception) :
  validate_try s b = Raise e -> is_ValueError e = true.
Proof.
  unfold validate_try. destruct (contains_char "." s).
  - destruct (split "." s) as [|p [|q [|x l]]]; simpl;
      try (now intros [= <-]).
    destruct (PyInt.int_of_str p (get_base_value b)) eqn:E; simpl.
    + apply check_fraction_raises_ValueError.
    + intros [= <-]. now apply int_of_str_raises_ValueError in E.
  - destruct (PyInt.int_of_str s (get_base_value b)) eqn:E; simpl;
      [discriminate|].
    intros [= <-]. now apply int_of_str_raises_ValueError in E.
Qed.

Lemma validate_false (s b : string) :
  validate_number s b <> Ok (true, "") ->
  validate_number s b = Ok (false, "Invalid " ++ lower b ++ " number").
Proof.
  unfold validate_number. destruct (validate_try s b) as [[]|e] eqn:E.
  - congruence.
  - now rewrite (validate_try_raises_ValueError _ _ _ E).
Qed.




(* ------------------------------------------------------------------ *)
(** ** The converter on literals without fractional part *)








(** ["b101"] is the rendering of no integer at all. *)
Lemma b101_not_a_rendering (n : Z) : renderInBase n 2 <> "b101".
Proof.
  intros H. pose proof (renderInBase_chars n 2 ltac:(lia)) as Hc.
  rewrite H in Hc. destruct Hc as [(d & Hd & Hb) _].
  assert (d = 0 \/ d = 1) as [-> | ->] by lia; discriminate.
Qed.

(* ------------------------------------------------------------------ *)
(** ** The validator on literals with a ['.'] *)

(** C4, as the code has it.  For a literal containing ['.']:
    [validate_number] returns [(True, "")] only if the literal contains
    exactly one ['.'] and its part before the ['.'] is a non-empty integer
    literal of the radix; a literal with two or more ['.'], and a literal
    whose part before the ['.'] is empty, is rejected.  (The part after the
    ['.'] may be empty.) *)
Theorem validate_number_dot (s b : string) :
  contains_char "." s = true ->
  (validate_number s b = Ok (true, "") ->
   count_char "." s = 1%nat /\
   exists ip fp v, s = ip ++ "." ++ fp /\ ip <> "" /\
     PyInt.int_of_str ip (get_base_value b) = Ok v) /\
  ((2 <= count_char "." s)%nat ->
   validate_number s b = Ok (false, "Invalid " ++ lower b ++ " number")) /\
  (starts_with "." s = true ->
   validate_number s b = Ok (false, "Invalid " ++ lower b ++ " number")).
Proof.
  intros Hdot.
  assert (Hacc : validate_number s b = Ok (true, "") ->
    count_char "." s = 1%nat /\
    exists ip fp v, s = ip ++ "." ++ fp /\ ip <> "" /\
      PyInt.int_of_str ip (get_base_value b) = Ok v).
  { intros Hv. apply validate_true in Hv. unfold validate_try in Hv.
    rewrite Hdot in Hv.
    pose proof (split_length "." s) as Hlen.
    destruct (split "." s) as [|ip [|fp [|y l]]] eqn:Es; try discriminate.
    simpl in Hlen. split; [lia|].
    apply split_two in Es as (-> & _ & _). simpl in Hv.
    destruct (PyInt.int_of_str ip (get_base_value b)) as [v|e] eqn:Ei;
      [|discriminate].
    exists ip, fp, v. repeat split; auto.
    intros ->. discriminate. }
  split; [exact Hacc|]. split.
  - intros Hc. apply validate_false. intros Hv.
    apply Hacc in Hv as [H1 _]. lia.
  - intros Hs. apply validate_false. intros Hv.
    apply Hacc in Hv as (_ & ip & fp & v & -> & Hne & Hi).
    apply int_of_str_no_dot in Hi.
    destruct ip as [|c ip]; [congruence|].
    cbn [append starts_with] in Hs. cbn [contains_char] in Hi.
    rewrite Ascii.eqb_sym in Hs.
    destruct (Ascii.eqb c "."); discriminate.
Qed.

Lemma validate_number_dot_witness :
  count_char "." "755.7" = 1%nat /\
  exists ip fp v, "755.7" = ip ++ "." ++ fp /\ ip <> "" /\
    PyInt.int_of_str ip (get_base_value "Octal") = Ok v.
Proof.
  apply (proj1 (validate_number_dot "755.7" "Octal" eq_refl)). reflexivity.
Defined.

(** The literal ["10."] has an empty part after its single ['.'] and is
    accepted all the same. *)
Lemma validate_accepts_empty_fraction :
  count_char "." "10." = 1%nat /\
  split "." "10." = ["10"; ""] /\
  validate_number "10." (base_name Decimal) = Ok (true, "").
Proof. repeat split. Qed.



(* ------------------------------------------------------------------ *)
(** ** The converter on literals with a fractional part *)

(** C2. ["1010.101"] from Binary to Decimal is exactly ["10.625"], and
    ["10.625"] from Decimal to Binary starts with ["1010.101"]. *)
Theorem convert_fraction_examples :
  convert_number_logic "1010.101" "Binary" "Decimal" = Ok "10.625" /\
  exists out,
    convert_number_logic "10.625" "Decimal" "Binary" = Ok out /\
    starts_with "1010.101" out = true.
Proof.
  split; [vm_compute; reflexivity|].
  exists "1010.101". split; vm_compute; reflexivity.
Qed.



(** C10. The valid Decimal literal ["0.00000001"] converts to Decimal as
    [str] of the accumulator, which is ["1E-8"]: scientific notation, with
    the character ['E']. *)
Theorem convert_decimal_scientific :
  exists literal dv out,
    validate_number literal "Decimal" = Ok (true, "") /\
    fraction_value literal (get_base_value "Decimal") = Ok dv /\
    convert_number_logic literal "Decimal" "Decimal" = Ok out /\
    out = PyDecimal.to_str dv /\
    out = "1E-8" /\
    contains_char "E" out = true.
Proof.
  exists "0.00000001", (PyDecimal.mkDecimal false 1 (-8)), "1E-8".
  repeat split.
Qed.

(** C9 at a failing input.  The literal ["1."] followed by U+00B2 is
    accepted for Decimal, because [isdigit] holds of U+00B2; the converter
    then raises, because [int] rejects that character. *)
Theorem validated_literal_raises :
  validate_number ("1." ++ String superscript_two "") "Decimal" = Ok (true, "") /\
  convert_number_logic ("1." ++ String superscript_two "") "Decimal" "Binary" =
  Raise (ValueErrorFrom
           (failure_message ("1." ++ String superscript_two "") "Decimal" "Binary")
           (PyInt.invalid_literal (String superscript_two "") 10)).
Proof. split; vm_compute; reflexivity. Qed.

(* ------------------------------------------------------------------ *)
(** ** Failure and termination *)

(** C6. [convert_number_logic] raises exactly when a step of its [try]
    block raises; the error raised is the [ValueError] with the message
    "Failed to convert {literal} from {fromBase} to {toBase}" chained to
    the original exception; and a returned string is the complete result
    of the [try] block.  A failing step is a failure of the block: the
    integer parse, the split into two parts, every step of the value of a
    fractional literal, and the rendering of that value. *)
Theorem convert_failure_wrapped (number_str from_base to_base : string) :
  (forall cause,
     convert_try number_str from_base to_base = Raise cause ->
     convert_number_logic number_str from_base to_base =
     Raise (ValueErrorFrom
              ("Failed to convert " ++ number_str ++ " from " ++ from_base
               ++ " to " ++ to_base) cause)) /\
  (forall e,
     convert_number_logic number_str from_base to_base = Raise e ->
     exists cause,
       convert_try number_str from_base to_base = Raise cause /\
       e = ValueErrorFrom
             ("Failed to convert " ++ number_str ++ " from " ++ from_base
              ++ " to " ++ to_base) cause) /\
  (forall out,
     convert_number_logic number_str from_base to_base = Ok out ->
     convert_try number_str from_base to_base = Ok out) /\
  (forall cause,
     contains_char "." number_str = false ->
     PyInt.int_of_str number_str (get_base_value from_base) = Raise cause ->
     convert_try number_str from_base to_base = Raise cause) /\
  (forall cause,
     contains_char "." number_str = true ->
     fraction_value number_str (get_base_value from_base) = Raise cause ->
     convert_try number_str from_base to_base = Raise cause) /\
  (forall cause decimal_value,
     contains_char "." number_str = true ->
     String.eqb to_base "Decimal" = false ->
     fraction_value number_str (get_base_value from_base) = Ok decimal_value ->
     render_fraction (get_base_value to_base) decimal_value = Raise cause ->
     convert_try number_str from_base to_base = Raise cause).
Proof.
  unfold convert_number_logic. repeat split.
  - intros cause ->. reflexivity.
  - intros e. destruct (convert_try number_str from_base to_base) as [r|c];
      [discriminate|].
    intros [= <-]. now exists c.
  - intros out. destruct (convert_try number_str from_base to_base);
      [now intros [= ->] | discriminate].
  - intros cause Hd Hi. unfold convert_try. now rewrite Hd, Hi.
  - intros cause Hd Hf. unfold convert_try. now rewrite Hd, Hf.
  - intros cause dv Hd Ht Hf Hr. unfold convert_try.
    rewrite Hd, Hf. cbn [bind]. now rewrite Ht.
Qed.

Lemma convert_failure_wrapped_witness :
  convert_number_logic "1G" "Hexadecimal" "Binary" =
  Raise (ValueErrorFrom "Failed to convert 1G from Hexadecimal to Binary"
           (PyInt.invalid_literal "1G" 16)).
Proof.
  apply (proj1 (convert_failure_wrapped "1G" "Hexadecimal" "Binary")).
  apply (proj1 (proj2 (proj2 (proj2
           (convert_failure_wrapped "1G" "Hexadecimal" "Binary")))));
    reflexivity.
Defined.

(** The [while] loop leaves through its test: with the fuel it is given,
    it ends with [temp <= 0]. *)
Lemma integer_loop_exits (f : nat) (b temp : Z) (acc : string) :
  2 <= b -> temp < 2 ^ Z.of_nat f -> fst (integer_loop f b temp acc) <= 0.
Proof.
  intros Hb. revert temp acc. induction f as [|f IH]; intros temp acc H.
  - simpl in *. lia.
  - cbn [integer_loop]. destruct (temp >? 0) eqn:E; [|simpl; lia].
    apply IH. apply div_radix_bound; lia.
Qed.

Lemma integer_loop_exits_fuel (b temp : Z) (acc : string) :
  2 <= b -> fst (integer_loop (PyInt.fuel_of temp) b temp acc) <= 0.
Proof.
  intros Hb. destruct (Z_lt_le_dec 0 temp) as [H|H].
  - apply integer_loop_exits; [exact Hb | now apply fuel_of_spec].
  - unfold PyInt.fuel_of. cbn [integer_loop].
    rewrite Z.gtb_ltb. apply Z.ltb_ge in H. rewrite H.
    simpl. now apply Z.ltb_ge.
Qed.

Lemma integer_loop_no_dot (f : nat) (b temp : Z) (acc : string) :
  2 <= b <= 16 ->
  contains_char "." (snd (integer_loop f b temp acc)) = contains_char "." acc.
Proof.
  intros Hb. revert temp acc. induction f as [|f IH]; intros temp acc;
    [reflexivity|].
  cbn [integer_loop]. destruct (temp >? 0); [|reflexivity].
  rewrite IH. assert (0 <= temp mod b < b) by (apply Z.mod_pos_bound; lia).
  rewrite digit_str_spec by lia. simpl.
  now rewrite spec_digit_not_dot by lia.
Qed.

Lemma integer_part_result_no_dot (b temp : Z) :
  2 <= b <= 16 -> contains_char "." (integer_part_result b temp) = false.
Proof.
  intros Hb. unfold integer_part_result. destruct (temp =? 0); [reflexivity|].
  now rewrite integer_loop_no_dot.
Qed.

Lemma frac_body_loop_var (b i : Z) (st st' : frac_state) :
  frac_body b i st = Ok st' -> loop_var st' = Some i.
Proof.
  unfold frac_body.
  destruct (PyDecimal.mul _ _) as [m|]; [|discriminate]. cbn [bind].
  destruct (PyDecimal.sub _ _) as [d|]; [|discriminate]. cbn [bind].
  now intros [= <-].
Qed.

(** At the end of the [for] loop the loop variable is one of the indices,
    and it is the last one unless the remainder is zero. *)
Lemma frac_loop_last (rng : list Z) (b : Z) (st st' : frac_state) :
  rng <> [] -> frac_loop rng b st = Ok st' ->
  exists i, In i rng /\ loop_var st' = Some i /\
    (PyDecimal.is_zero (fractional st') = true \/ i = last rng 0).
Proof.
  revert st. induction rng as [|i rest IH]; intros st Hne; [congruence|].
  cbn [frac_loop]. destruct (frac_body b i st) as [st1|] eqn:Eb; [|discriminate].
  cbn [bind]. apply frac_body_loop_var in Eb.
  destruct (PyDecimal.is_zero (fractional st1)) eqn:Ez.
  - intros [= <-]. exists i. simpl. auto.
  - destruct rest as [|j rest].
    + intros [= <-]. exists i. simpl. auto.
    + intros H. apply IH in H as (k & Hin & Hk & Hz); [|discriminate].
      exists k. split; [now right|]. split; [exact Hk|].
      destruct Hz as [Hz|Hz]; [now left | right; exact Hz].
Qed.

Lemma gt_zero_not_zero (d : PyDecimal.Decimal) :
  PyDecimal.is_zero d = true -> PyDecimal.gt_zero d = false.
Proof.
  unfold PyDecimal.is_zero, PyDecimal.gt_zero. intros ->.
  now rewrite andb_false_r.
Qed.

(** C7.  Every call returns a string or raises the chained [ValueError];
    the [while] loop over the integer part reaches its exit test.  For a
    literal with a fractional part and a target other than Decimal, the
    result is the integer digits, which contain no ['.'], followed by what
    the digit loop produced: nothing at all when the fractional remainder
    is not positive, in particular when it is zero; otherwise the loop
    over [range(10)] ends with its variable between 0 and 9, that is after
    at most ten rounds, and before the tenth only with remainder zero.  A
    round that leaves remainder zero is the last one. *)
Theorem convert_terminates_bounded :
  (forall number_str from_base to_base,
     (exists out, convert_number_logic number_str from_base to_base = Ok out) \/
     (exists cause,
        convert_number_logic number_str from_base to_base =
        Raise (ValueErrorFrom (failure_message number_str from_base to_base) cause))) /\
  (forall to_base temp acc,
     fst (integer_loop (PyInt.fuel_of temp) (get_base_value to_base) temp acc) <= 0) /\
  (forall b i rest st st',
     frac_body b i st = Ok st' ->
     PyDecimal.is_zero (fractional st') = true ->
     frac_loop (i :: rest) b st = Ok st') /\
  (forall number_str from_base to_base out,
     contains_char "." number_str = true ->
     String.eqb to_base "Decimal" = false ->
     convert_number_logic number_str from_base to_base = Ok out ->
     exists dv fr,
       fraction_value number_str (get_base_value from_base) = Ok dv /\
       PyDecimal.sub dv (PyDecimal.of_int (PyDecimal.to_int dv)) = Ok fr /\
       contains_char "."
         (integer_part_result (get_base_value to_base) (PyDecimal.to_int dv)) = false /\
       (PyDecimal.is_zero fr = true -> PyDecimal.gt_zero fr = false) /\
       (PyDecimal.gt_zero fr = false ->
        out = integer_part_result (get_base_value to_base) (PyDecimal.to_int dv)) /\
       (PyDecimal.gt_zero fr = true ->
        exists st' i,
          frac_loop (range 10) (get_base_value to_base) (mkFrac None fr ".") = Ok st' /\
          out = integer_part_result (get_base_value to_base) (PyDecimal.to_int dv)
                ++ fractional_result st' /\
          loop_var st' = Some i /\ 0 <= i <= 9 /\
          (i < 9 -> PyDecimal.is_zero (fractional st') = true))).
Proof.
  split; [|split; [|split]].
  - intros s f t. unfold convert_number_logic.
    destruct (convert_try s f t) as [out|cause]; [left | right]; eauto.
  - intros t temp acc. apply integer_loop_exits_fuel.
    pose proof (known_radix_bounds _ (get_base_value_known t)). lia.
  - intros b i rest st st' Hb Hz. cbn [frac_loop]. rewrite Hb. cbn [bind].
    now rewrite Hz.
  - intros s f t out Hdot Ht Hc.
    pose proof (known_radix_bounds _ (get_base_value_known t)) as Hb.
    unfold convert_number_logic in Hc.
    destruct (convert_try s f t) as [r|] eqn:E; [|discriminate].
    injection Hc as ->. unfold convert_try in E. rewrite Hdot in E.
    destruct (fraction_value s (get_base_value f)) as [dv|] eqn:Ef;
      [|discriminate].
    cbn [bind] in E. rewrite Ht in E.
    unfold render_fraction in E.
    destruct (PyDecimal.sub dv _) as [fr|] eqn:Es; [|discriminate].
    cbn [bind] in E.
    exists dv, fr. split; [reflexivity|]. split; [exact Es|].
    split; [now apply integer_part_result_no_dot|].
    split; [apply gt_zero_not_zero|].
    unfold fractional_part_result in E.
    destruct (PyDecimal.gt_zero fr); split; try discriminate.
    + intros _.
      destruct (frac_loop _ _ _) as [st'|] eqn:El; [|discriminate].
      cbn [bind] in E. injection E as <-.
      apply frac_loop_last in El as (i & Hin & Hi & Hz); [|discriminate].
      exists st', i. repeat split; auto.
      * simpl in Hin. lia.
      * simpl in Hin. lia.
      * intros Hlt. destruct Hz as [Hz|Hz]; [exact Hz|]. simpl in Hz. lia.
    + intros _. cbn [bind] in E. injection E as <-. now rewrite append_nil_r.
Qed.

Lemma convert_terminates_bounded_witness :
  exists dv fr,
    fraction_value "10.625" (get_base_value "Decimal") = Ok dv /\
    PyDecimal.sub dv (PyDecimal.of_int (PyDecimal.to_int dv)) = Ok fr /\
    contains_char "."
      (integer_part_result (get_base_value "Binary") (PyDecimal.to_int dv)) = false /\
    (PyDecimal.is_zero fr = true -> PyDecimal.gt_zero fr = false) /\
    (PyDecimal.gt_zero fr = false ->
     "1010.101" = integer_part_result (get_base_value "Binary") (PyDecimal.to_int dv)) /\
    (PyDecimal.gt_zero fr = true ->
     exists st' i,
       frac_loop (range 10) (get_base_value "Binary") (mkFrac None fr ".") = Ok st' /\
       "1010.101" = integer_part_result (get_base_value "Binary") (PyDecimal.to_int dv)
                    ++ fractional_result st' /\
       loop_var st' = Some i /\ 0 <= i <= 9 /\
       (i < 9 -> PyDecimal.is_zero (fractional st') = true)).
Proof.
  apply (proj2 (proj2 (proj2 convert_terminates_bounded))
           "10.625" "Decimal" "Binary" "1010.101");
    [reflexivity | reflexivity | vm_compute; reflexivity].
Defined.

(* ------------------------------------------------------------------ *)
(** ** Further properties of the conversion core *)

(** X1. [get_base_value] returns one of the radices 2, 8, 10 and 16 for
    every name; a name that is not a key of the table gives 10; and the
    radices 2, 8 and 16 are given for the names Binary, Octal and
    Hexadecimal only. *)
Theorem get_base_value_total (name : string) :
  known_radix (get_base_value name) /\
  (mem name ["Decimal"; "Binary"; "Octal"; "Hexadecimal"] = false ->
   get_base_value name = 10) /\
  (get_base_value name = 2 -> name = "Binary") /\
  (get_base_value name = 8 -> name = "Octal") /\
  (get_base_value name = 16 -> name = "Hexadecimal").
Proof.
  split; [apply get_base_value_known|].
  unfold get_base_value, base_map, mem. cbn [dict_get existsb].
  rewrite !(String.eqb_sym _ name).
  destruct (String.eqb_spec name "Decimal") as [->|H1];
    [repeat split; discriminate|].
  destruct (String.eqb_spec name "Binary") as [->|H2];
    [repeat split; discriminate || reflexivity|].
  destruct (String.eqb_spec name "Octal") as [->|H3];
    [repeat split; discriminate || reflexivity|].
  destruct (String.eqb_spec name "Hexadecimal") as [->|H4];
    [repeat split; discriminate || reflexivity|].
  repeat split; discriminate || reflexivity.
Qed.

Lemma get_base_value_total_witness : get_base_value "Unknown" = 10.
Proof.
  apply (proj1 (proj2 (get_base_value_total "Unknown"))). reflexivity.
Defined.

(** X2. [validate_number] never raises: it returns [(True, "")] or
    [(False, "Invalid {base} number")] with the base name in lower case. *)
Theorem validate_number_total (number_str base_name : string) :
  validate_number number_str base_name = Ok (true, "") \/
  validate_number number_str base_name =
    Ok (false, "Invalid " ++ lower base_name ++ " number").
Proof.
  destruct (validate_number number_str base_name) as [[[|] m]|e] eqn:E.
  - unfold validate_number in E.
    destruct (validate_try number_str base_name) as [[]|x]; [now left|].
    destruct (is_ValueError x); discriminate.
  - right. rewrite <- E. apply validate_false. rewrite E. discriminate.
  - right. rewrite <- E. apply validate_false. rewrite E. discriminate.
Qed.































(* ------------------------------------------------------------------ *)
(** ** The history file *)

Lemma terminated_cons (c : ascii) (r : string) :
  terminated (String c r) = true ->
  (r = "" /\ c = LF) \/ (r <> "" /\ terminated r = true).
Proof.
  destruct r as [|d r].
  - simpl. intros H. apply Ascii.eqb_eq in H. now left.
  - intros H. right. split; [discriminate | exact H].
Qed.

Lemma terminated_append (a b : string) :
  terminated b = true -> b <> "" -> terminated (a ++ b) = true.
Proof.
  intros Hb Hne. induction a as [|c a IH]; [exact Hb|].
  cbn [append]. destruct (a ++ b) as [|d r] eqn:E.
  - destruct a; [simpl in E; congruence | discriminate].
  - exact IH.
Qed.

Lemma translate_no_cr (s : string) :
  contains_char CR s = false -> translate_newlines s = s.
Proof.
  induction s as [|c s IH]; [reflexivity|].
  cbn [contains_char translate_newlines].
  destruct (Ascii.eqb c CR); [discriminate|].
  intros H. now rewrite IH.
Qed.

(** Reading a complete text and what follows it: the translation of the
    line ends does not reach across the seam. *)
Lemma translate_append_bounded (k : nat) (a b : string) :
  (String.length a <= k)%nat -> terminated a = true ->
  translate_newlines (a ++ b) = translate_newlines a ++ translate_newlines b /\
  terminated (translate_newlines a) = true.
Proof.
  revert a. induction k as [|k IH]; intros a Hk Ht.
  - destruct a; [split; reflexivity | simpl in Hk; lia].
  - destruct a as [|c a]; [split; reflexivity|].
    simpl in Hk.
    apply terminated_cons in Ht as [[-> ->] | [Hne Ha]].
    + split; reflexivity.
    + cbn [append translate_newlines].
      destruct (Ascii.eqb_spec c CR) as [->|Hc].
      * destruct a as [|c2 r2]; [congruence|].
        cbn [append]. destruct (Ascii.eqb_spec c2 LF) as [->|Hc2].
        -- assert (Hr2 : terminated r2 = true).
           { destruct r2; [reflexivity | exact Ha]. }
           destruct (IH r2) as [E1 E2]; [simpl in Hk; lia | exact Hr2 |].
           rewrite E1. split; [reflexivity|].
           change (terminated (String LF (translate_newlines r2)) = true).
           destruct (translate_newlines r2); [reflexivity | exact E2].
        -- destruct (IH (String c2 r2)) as [E1 E2]; [lia | exact Ha |].
           cbn [append] in E1. rewrite E1. split; [reflexivity|].
           change (terminated
                     (String LF (translate_newlines (String c2 r2))) = true).
           destruct (translate_newlines (String c2 r2)); [reflexivity | exact E2].
      * destruct (IH a) as [E1 E2]; [lia | exact Ha |].
        rewrite E1. split; [reflexivity|].
        change (terminated (String c (translate_newlines a)) = true).
        destruct (translate_newlines a) eqn:Et; [|exact E2].
        destruct a as [|c2 r2]; [congruence|].
        cbn [translate_newlines] in Et.
        destruct (Ascii.eqb c2 CR); discriminate.
Qed.

Lemma translate_append (a b : string) :
  terminated a = true ->
  translate_newlines (a ++ b) = translate_newlines a ++ translate_newlines b.
Proof. intros H. now apply (translate_append_bounded (String.length a)). Qed.

Lemma translate_terminated (a : string) :
  terminated a = true -> terminated (translate_newlines a) = true.
Proof.
  intros H. now apply (translate_append_bounded (String.length a) a "").
Qed.

Lemma split_lines_nil (s : string) : split_lines s = [] -> s = "".
Proof.
  destruct s as [|c s]; [reflexivity|]. cbn [split_lines].
  destruct (Ascii.eqb c LF); [discriminate|].
  destruct (split_lines s); discriminate.
Qed.

Lemma split_lines_append (a b : string) :
  terminated a = true ->
  split_lines (a ++ b) = (split_lines a ++ split_lines b)%list.
Proof.
  induction a as [|c a IH]; [reflexivity|].
  intros Ht. apply terminated_cons in Ht as [[-> ->] | [Hne Ha]];
    [reflexivity|].
  cbn [append split_lines]. rewrite (IH Ha).
  destruct (Ascii.eqb c LF); [reflexivity|].
  destruct (split_lines a) as [|l ls] eqn:E; [|reflexivity].
  apply split_lines_nil in E. congruence.
Qed.

(** A text without line break, followed by ['\n'], is one line. *)
Lemma split_lines_one (body : string) :
  contains_char LF body = false ->
  split_lines (body ++ String LF "") = [body ++ String LF ""].
Proof.
  induction body as [|c body IH]; [reflexivity|].
  cbn [contains_char append split_lines].
  destruct (Ascii.eqb c LF); [discriminate|].
  intros H. now rewrite (IH H).
Qed.

Lemma one_line_append (a b : string) :
  one_line (a ++ b) = one_line a && one_line b.
Proof.
  unfold one_line. rewrite !contains_char_append.
  destruct (contains_char LF a), (contains_char CR a),
    (contains_char LF b), (contains_char CR b); reflexivity.
Qed.

Lemma record_line_shape (r : record) :
  record_one_line r = true ->
  exists body, record_line r = body ++ String LF "" /\ one_line body = true.
Proof.
  destruct r as [[[i f] x] t]. unfold record_one_line, record_line, history_line.
  intros H. apply andb_prop in H as [H Ht]. apply andb_prop in H as [H Hx].
  apply andb_prop in H as [Hi Hf].
  exists (i ++ " (" ++ f ++ ") -> " ++ x ++ " (" ++ t ++ ")"). split.
  - now rewrite !append_assoc.
  - rewrite !one_line_append, Hi, Hf, Hx, Ht. reflexivity.
Qed.

Lemma readlines_record (r : record) :
  record_one_line r = true ->
  readlines (record_line r) = [record_line r] /\
  terminated (record_line r) = true /\ record_line r <> "".
Proof.
  intros H. apply record_line_shape in H as (body & -> & Hb).
  unfold one_line in Hb. apply andb_prop in Hb as [Hlf Hcr].
  apply negb_true_iff in Hlf, Hcr.
  split; [|split].
  - unfold readlines. rewrite translate_no_cr.
    + now apply split_lines_one.
    + rewrite contains_char_append, Hcr. reflexivity.
  - now apply terminated_append.
  - destruct body; discriminate.
Qed.

Lemma readlines_append (a b : string) :
  terminated a = true -> readlines (a ++ b) = (readlines a ++ readlines b)%list.
Proof.
  intros H. unfold readlines. rewrite translate_append by exact H.
  apply split_lines_append. now apply translate_terminated.
Qed.

Lemma save_record (f : file) (i fb x t : string) :
  well_formed f = true -> record_one_line (i, fb, x, t) = true ->
  file_lines (save_to_history f i fb x t)
  = (file_lines f ++ [history_line i fb x t])%list /\
  well_formed (save_to_history f i fb x t) = true.
Proof.
  intros Hf Hr. destruct (readlines_record _ Hr) as (Hl & Ht & Hne).
  cbn [record_line] in Hl, Ht, Hne.
  destruct f as [|content|]; try discriminate; cbn [save_to_history file_lines well_formed].
  - auto.
  - cbn [well_formed] in Hf. rewrite readlines_append, Hl by exact Hf.
    split; [reflexivity | now apply terminated_append].
Qed.

Lemma last_n_length {A : Type} (n : nat) (xs : list A) :
  (List.length (last_n n xs) <= n)%nat.
Proof. unfold last_n. rewrite length_skipn. lia. Qed.

Lemma last_n_suffix {A : Type} (n : nat) (xs : list A) :
  (firstn (List.length xs - n) xs ++ last_n n xs)%list = xs.
Proof. unfold last_n. apply firstn_skipn. Qed.

Lemma last_n_snoc {A : Type} (n : nat) (xs : list A) (x : A) :
  last_n (S n) (xs ++ [x])%list = (last_n n xs ++ [x])%list.
Proof.
  unfold last_n. rewrite length_app. simpl.
  replace (List.length xs + 1 - S n)%nat with (List.length xs - n)%nat by lia.
  rewrite skipn_app.
  replace (List.length xs - n - List.length xs)%nat with O by lia.
  reflexivity.
Qed.

(** X11. [read_history] returns at most five lines: none for a file that
    is missing or cannot be read, and otherwise the last lines of the
    file, in the order of the file. *)
Theorem read_history_last_five (f : file) :
  (List.length (read_history f) <= 5)%nat /\
  (f = Absent \/ f = Unavailable -> read_history f = []) /\
  (forall content, f = Present content ->
     (firstn (List.length (readlines content) - 5) (readlines content)
      ++ read_history f)%list = readlines content).
Proof.
  split; [|split].
  - destruct f; cbn [read_history]; try (simpl; lia). apply last_n_length.
  - intros [-> | ->]; reflexivity.
  - intros content ->. apply last_n_suffix.
Qed.

Lemma read_history_last_five_witness : read_history Unavailable = [].
Proof.
  apply (proj1 (proj2 (read_history_last_five Unavailable))). right. reflexivity.
Defined.

(** X12. Saving a record whose four fields contain no line break, to a
    history file that is missing or whose lines are all complete, adds
    exactly one line, the formatted record, after the lines already
    there, and leaves a file whose lines are all complete.
    [read_history] then returns the record as its last entry, after the
    last four of the earlier lines. *)
Theorem save_then_read (f : file) (input_val from_base result to_base : string) :
  well_formed f = true ->
  record_one_line (input_val, from_base, result, to_base) = true ->
  let f' := save_to_history f input_val from_base result to_base in
  file_lines f'
  = (file_lines f ++ [history_line input_val from_base result to_base])%list /\
  well_formed f' = true /\
  read_history f'
  = (last_n 4 (file_lines f)
     ++ [history_line input_val from_base result to_base])%list.
Proof.
  intros Hf Hr f'. destruct (save_record f _ _ _ _ Hf Hr) as [Hl Hw].
  split; [exact Hl|]. split; [exact Hw|].
  subst f'. destruct (save_to_history f input_val from_base result to_base)
    as [|content|] eqn:E; try discriminate.
  - destruct f; discriminate.
  - cbn [read_history]. cbn [file_lines] in Hl. rewrite Hl.
    apply last_n_snoc.
Qed.

Lemma save_then_read_witness :
  let f' := save_to_history Absent "1010" "Binary" "10" "Decimal" in
  file_lines f'
  = (file_lines Absent ++ [history_line "1010" "Binary" "10" "Decimal"])%list /\
  well_formed f' = true /\
  read_history f'
  = (last_n 4 (file_lines Absent)
     ++ [history_line "1010" "Binary" "10" "Decimal"])%list.
Proof.
  apply (save_then_read Absent "1010" "Binary" "10" "Decimal"); reflexivity.
Defined.

Lemma save_all_lines (records : list record) (f : file) :
  well_formed f = true ->
  forallb record_one_line records = true ->
  file_lines (save_all f records)
  = (file_lines f ++ map record_line records)%list /\
  well_formed (save_all f records) = true.
Proof.
  revert f. induction records as [|r rs IH]; intros f Hf Hr.
  - simpl. now rewrite app_nil_r.
  - cbn [forallb] in Hr. apply andb_prop in Hr as [Hr Hrs].
    destruct r as [[[i fb] x] t].
    destruct (save_record f i fb x t Hf Hr) as [Hl Hw].
    unfold save_all in *. cbn [fold_left].
    destruct (IH _ Hw Hrs) as [E1 E2]. rewrite E1, Hl.
    split; [|exact E2]. cbn [map record_line]. now rewrite <- app_assoc.
Qed.

(** X13. After any number of records without line breaks have been saved
    to a missing or complete history file, [read_history] returns the
    last five of the earlier lines followed by the records, in order: of
    five or more saved records, exactly the last five. *)
Theorem read_after_saves (f : file) (records : list record) :
  well_formed f = true ->
  forallb record_one_line records = true ->
  read_history (save_all f records)
  = last_n 5 (file_lines f ++ map record_line records)%list.
Proof.
  intros Hf Hr. destruct (save_all_lines records f Hf Hr) as [Hl Hw].
  destruct (save_all f records) as [|content|] eqn:E; try discriminate.
  - cbn [file_lines] in Hl. rewrite <- Hl. reflexivity.
  - cbn [file_lines read_history] in *. now rewrite Hl.
Qed.

Lemma read_after_saves_witness :
  read_history
    (save_all Absent
       [("1", "Decimal", "0b1", "Binary"); ("2", "Decimal", "0b10", "Binary");
        ("3", "Decimal", "0b11", "Binary"); ("4", "Decimal", "0b100", "Binary");
        ("5", "Decimal", "0b101", "Binary"); ("6", "Decimal", "0b110", "Binary")])
  = last_n 5
      (file_lines Absent ++
       map record_line
         [("1", "Decimal", "0b1", "Binary"); ("2", "Decimal", "0b10", "Binary");
          ("3", "Decimal", "0b11", "Binary"); ("4", "Decimal", "0b100", "Binary");
          ("5", "Decimal", "0b101", "Binary"); ("6", "Decimal", "0b110", "Binary")])%list.
Proof. apply read_after_saves; reflexivity. Defined.

(* ------------------------------------------------------------------ *)
(** ** The window *)






(** The two updates of the recent bases touch nothing else but the values
    of the comboboxes. *)
Lemma recent_updates_fields (w : window) (f t : string) :
  let w' := update_recent_to (update_recent_from w f) t in
  input_var w' = input_var w /\ from_base_var w' = from_base_var w /\
  to_base_var w' = to_base_var w /\ result_var w' = result_var w /\
  status_var w' = status_var w /\ history_file w' = history_file w /\
  history_box w' = history_box w.
Proof.
  unfold update_recent_to, update_recent_from.
  destruct (mem f (recent_bases w));
    [destruct (mem t (recent_bases w))
    | cbn [recent_bases]; destruct (mem t _)];
    repeat split.
Qed.

Ltac finish_run :=
  match goal with
  | |- context [update_recent_to (update_recent_from ?W ?f) ?t] =>
      let H := fresh in
      pose proof (recent_updates_fields W f t) as H; cbv zeta in H;
      let H1 := fresh in let H2 := fresh in let H3 := fresh in
      let H4 := fresh in let H5 := fresh in let H6 := fresh in
      let H7 := fresh in
      destruct H as (H1 & H2 & H3 & H4 & H5 & H6 & H7);
      rewrite ?H1, ?H2, ?H3, ?H4, ?H5, ?H6, ?H7
  end;
  cbn [update_history set_history_file set_status set_result set_from_base
       input_var from_base_var to_base_var result_var status_var
       recent_bases from_combo_values to_combo_values history_file history_box];
  repeat split.

(** X14. [convert_number] never lets an exception out: whatever the
    window holds, the handler ends normally. *)
Theorem convert_number_never_raises (w : window) :
  exists w', convert_number w = Ok w'.
Proof.
  unfold convert_number.
  destruct (String.length (strip (input_var w)) =? 0)%nat; [eauto|].
  destruct (detect_input_base (strip (input_var w))) as [auto_base number].
  match goal with
  | |- context [validate_number ?x ?y] =>
      destruct (validate_number_total x y) as [E|E]; rewrite E
  end; cbn [bind negb].
  - match goal with
    | |- context [convert_number_logic ?x ?y ?z] =>
        destruct (convert_number_logic x y z)
    end; eauto.
  - eauto.
Qed.







(** X17. A lower-case prefix wins over the selection: when the stripped
    input starts with [0x], [0b] or [0o], the source base that is
    selected has no influence on what the handler does, and after the
    handler the selection is the base of the prefix. *)
Theorem prefix_overrides_selection (w : window) (selected : string) :
  starts_with "0x" (strip (input_var w))
  || starts_with "0b" (strip (input_var w))
  || starts_with "0o" (strip (input_var w)) = true ->
  convert_number (set_from_base w selected) = convert_number w /\
  exists b,
    fst (detect_input_base (strip (input_var w))) = Some b /\
    forall w', convert_number w = Ok w' -> from_base_var w' = b.
Proof.
  intros H.
  assert (Hd : exists b rest,
            detect_input_base (strip (input_var w)) = (Some b, rest)).
  { unfold detect_input_base.
    destruct (starts_with "0x" _); [eauto|].
    destruct (starts_with "0b" _); [eauto|].
    destruct (starts_with "0o" _); [eauto | discriminate]. }
  destruct Hd as (b & rest & Hd). split.
  - unfold convert_number. cbn [input_var set_from_base]. rewrite Hd.
    destruct (strip (input_var w)) as [|c s]; [discriminate Hd|].
    cbn [String.length Nat.eqb]. reflexivity.
  - exists b. rewrite Hd. split; [reflexivity|].
    intros w'. unfold convert_number. rewrite Hd.
    destruct (strip (input_var w)) as [|c s] eqn:Es; [discriminate Hd|].
    cbn [String.length Nat.eqb].
    cbn [from_base_var to_base_var set_from_base].
    destruct (validate_number rest b) as [[valid msg]|e]; [|discriminate].
    cbn [bind]. destruct valid; cbn [negb].
    + destruct (convert_number_logic rest b (to_base_var w)).
      * intros [= <-]. finish_run.
      * intros [= <-]. reflexivity.
    + intros [= <-]. reflexivity.
Qed.

Lemma prefix_overrides_selection_witness :
  convert_number
    (set_from_base
       (mkWindow "0b1" "Hexadecimal" "Decimal" "" "Ready" [] [] [] Absent "")
       "Decimal")
  = convert_number
      (mkWindow "0b1" "Hexadecimal" "Decimal" "" "Ready" [] [] [] Absent "") /\
  exists b,
    fst (detect_input_base
           (strip (input_var
                     (mkWindow "0b1" "Hexadecimal" "Decimal" "" "Ready"
                        [] [] [] Absent "")))) = Some b /\
    forall w',
      convert_number
        (mkWindow "0b1" "Hexadecimal" "Decimal" "" "Ready" [] [] [] Absent "")
      = Ok w' -> from_base_var w' = b.
Proof.
  apply (prefix_overrides_selection
           (mkWindow "0b1" "Hexadecimal" "Decimal" "" "Ready" [] [] [] Absent "")
           "Decimal"). reflexivity.
Defined.

(** X18. A run of the handler that does not end with the status
    "Converted successfully" leaves no trace: the history file, the
    history box, the recent bases and the values of the two comboboxes
    are what they were, the status starts with "Error: ", and the result
    is cleared unless the input was blank, in which case it is kept. *)
Theorem failed_conversion_leaves_no_trace (w w' : window) :
  convert_number w = Ok w' ->
  String.eqb (status_var w') "Converted successfully" = false ->
  history_file w' = history_file w /\
  history_box w' = history_box w /\
  recent_bases w' = recent_bases w /\
  from_combo_values w' = from_combo_values w /\
  to_combo_values w' = to_combo_values w /\
  starts_with "Error: " (status_var w') = true /\
  result_var w'
  = (if (String.length (strip (input_var w)) =? 0)%nat then result_var w else "").
Proof.
  unfold convert_number.
  destruct (String.length (strip (input_var w)) =? 0)%nat.
  - intros [= <-] _. repeat split.
  - destruct (detect_input_base (strip (input_var w))) as [auto_base number].
    match goal with
    | |- context [validate_number ?x ?y] =>
        destruct (validate_number x y) as [[valid msg]|e]; [|discriminate]
    end.
    cbn [bind]. destruct valid; cbn [negb].
    + match goal with
      | |- context [convert_number_logic ?x ?y ?z] =>
          destruct (convert_number_logic x y z)
      end.
      * intros [= <-] Hs. exfalso. revert Hs.
        match goal with
        | |- context [update_recent_to (update_recent_from ?W ?f) ?t] =>
            destruct (recent_updates_fields W f t) as (_ & _ & _ & _ & -> & _)
        end.
        discriminate.
      * intros [= <-] _. destruct auto_base; repeat split.
    + intros [= <-] _. destruct auto_base; repeat split.
Qed.

Lemma failed_conversion_leaves_no_trace_witness :
  let w := mkWindow "12.9.1" "Decimal" "Binary" "0b1" "Ready"
             ["Decimal"] [] [] (Present "old") "old" in
  let w' := mkWindow "12.9.1" "Decimal" "Binary" "" "Error: Invalid decimal number"
              ["Decimal"] [] [] (Present "old") "old" in
  history_file w' = history_file w /\
  history_box w' = history_box w /\
  recent_bases w' = recent_bases w /\
  from_combo_values w' = from_combo_values w /\
  to_combo_values w' = to_combo_values w /\
  starts_with "Error: " (status_var w') = true /\
  result_var w'
  = (if (String.length (strip (input_var w)) =? 0)%nat then result_var w else "").
Proof.
  intros w w'. apply (failed_conversion_leaves_no_trace w w'); reflexivity.
Defined.

Lemma mem_In (x : string) (l : list string) : mem x l = true <-> In x l.
Proof.
  unfold mem. rewrite existsb_exists. split.
  - intros (y & Hy & E). apply String.eqb_eq in E. now subst.
  - intros H. exists x. split; [exact H | apply String.eqb_refl].
Qed.

Lemma NoDup_firstn {A : Type} (k : nat) (l : list A) :
  NoDup l -> NoDup (firstn k l).
Proof.
  revert k. induction l as [|a l IH]; intros k H.
  - now rewrite firstn_nil.
  - destruct k as [|k]; [constructor|]. cbn [firstn].
    inversion H as [|? ? Hn Hl]; subst. constructor; [|now apply IH].
    intros Hin. apply Hn. revert Hin. clear.
    revert k. induction l as [|b l IH]; intros k; [now rewrite firstn_nil|].
    destruct k; cbn [firstn]; [intros []|].
    intros [->|Hin]; [now left | right; now apply (IH k)].
Qed.

Lemma update_recent_facts (l : list string) (b : string) :
  mem b (update_recent l b) = true /\
  (NoDup l -> NoDup (update_recent l b)) /\
  (List.length (update_recent l b) <= Nat.max 4 (List.length l))%nat /\
  (mem b l = true -> update_recent l b = l).
Proof.
  unfold update_recent. destruct (mem b l) eqn:E.
  - repeat split; auto. lia.
  - repeat split.
    + cbn [firstn mem existsb]. now rewrite String.eqb_refl.
    + intros H. apply NoDup_firstn. constructor; [|exact H].
      intros Hin. apply mem_In in Hin. congruence.
    + rewrite length_firstn. lia.
    + discriminate.
Qed.

Lemma recent_bases_after_updates (w : window) (f t : string) :
  recent_bases (update_recent_to (update_recent_from w f) t)
  = update_recent (update_recent (recent_bases w) f) t.
Proof.
  unfold update_recent_to, update_recent_from, update_recent.
  destruct (mem f (recent_bases w)); cbn [recent_bases];
    destruct (mem t _); reflexivity.
Qed.

(** X19. After a run that ends with "Converted successfully", the target
    base is among the recent bases; a list of recent bases without
    duplicates stays without duplicates; the list has at most four
    entries, or as many as before if that was more; and the source base
    is among the recent bases too whenever the target base already was
    before the run. *)
Theorem recent_bases_after_success (w w' : window) :
  convert_number w = Ok w' ->
  String.eqb (status_var w') "Converted successfully" = true ->
  mem (to_base_var w') (recent_bases w') = true /\
  (NoDup (recent_bases w) -> NoDup (recent_bases w')) /\
  (List.length (recent_bases w') <= Nat.max 4 (List.length (recent_bases w)))%nat /\
  (mem (to_base_var w) (recent_bases w) = true ->
   mem (from_base_var w') (recent_bases w') = true).
Proof.
  unfold convert_number.
  destruct (String.length (strip (input_var w)) =? 0)%nat.
  { intros [= <-] Hs. cbn in Hs.
    destruct (String.eqb_spec (status_var w) "Converted successfully");
      [|discriminate].
    discriminate. }
  destruct (detect_input_base (strip (input_var w))) as [auto_base number].
  set (w1 := match auto_base with Some b => set_from_base w b | None => w end).
  assert (Hr1 : recent_bases w1 = recent_bases w) by (subst w1; now destruct auto_base).
  assert (Ht1 : to_base_var w1 = to_base_var w) by (subst w1; now destruct auto_base).
  destruct (validate_number _ (from_base_var w1)) as [[valid msg]|e]; [|discriminate].
  cbn [bind]. destruct valid; cbn [negb]; [|intros [= <-]; discriminate].
  destruct (convert_number_logic _ (from_base_var w1) (to_base_var w1)) as [r|e];
    [|intros [= <-]; discriminate].
  intros [= <-] _.
  set (w2 := update_history _).
  assert (Hr2 : recent_bases w2 = recent_bases w) by (subst w2; exact Hr1).
  assert (Hf : forall v, from_base_var (update_recent_to (update_recent_from w2 (from_base_var w1)) v)
                         = from_base_var w1).
  { intros v. unfold update_recent_to, update_recent_from.
    repeat match goal with
           | |- context [if ?c then _ else _] => destruct c
           end; reflexivity. }
  assert (Ht : forall u v, to_base_var (update_recent_to (update_recent_from w2 u) v)
                           = to_base_var w1).
  { intros u v. unfold update_recent_to, update_recent_from.
    repeat match goal with
           | |- context [if ?c then _ else _] => destruct c
           end; reflexivity. }
  rewrite Hf, Ht, recent_bases_after_updates, Hr2, Ht1.
  set (l := recent_bases w). set (f := from_base_var w1). set (t := to_base_var w).
  clearbody l f t.
  destruct (update_recent_facts l f) as (Hm1 & Hn1 & Hl1 & Hk1).
  destruct (update_recent_facts (update_recent l f) t) as (Hm2 & Hn2 & Hl2 & Hk2).
  split; [exact Hm2|]. split; [auto|]. split; [lia|].
  intros Hin. unfold update_recent. destruct (mem f l) eqn:Ef.
  - now rewrite Hin.
  - change (firstn 4 (f :: l)) with (f :: firstn 3 l).
    destruct (mem t (f :: firstn 3 l)).
    + unfold mem. cbn [existsb]. now rewrite String.eqb_refl.
    + change (firstn 4 (t :: f :: firstn 3 l))
        with (t :: f :: firstn 2 (firstn 3 l)).
      unfold mem. cbn [existsb]. now rewrite String.eqb_refl, orb_true_r.
Qed.

Lemma recent_bases_after_success_witness :
  let w := mkWindow "10" "Octal" "Decimal" "" "Ready"
             ["Decimal"; "Binary"] [] [] Absent "" in
  let w' := mkWindow "10" "Octal" "Decimal" "8" "Converted successfully"
              ["Octal"; "Decimal"; "Binary"] ["Octal"; "Decimal"; "Binary"] []
              (Present (history_line "10" "Octal" "8" "Decimal"))
              (history_line "10" "Octal" "8" "Decimal") in
  convert_number w = Ok w' /\
  mem (to_base_var w') (recent_bases w') = true /\
  (NoDup (recent_bases w) -> NoDup (recent_bases w')) /\
  (List.length (recent_bases w') <= Nat.max 4 (List.length (recent_bases w)))%nat /\
  (mem (to_base_var w) (recent_bases w) = true ->
   mem (from_base_var w') (recent_bases w') = true).
Proof.
  intros w w'. split; [vm_compute; reflexivity|].
  apply (recent_bases_after_success w w'); vm_compute; reflexivity.
Defined.

(* ------------------------------------------------------------------ *)
(** ** Colours *)

Lemma channels_round_trip :
  forallb (fun k => channel_round_trip (Z.of_nat k)) (seq 0 256) = true.
Proof. vm_compute. reflexivity. Qed.

Lemma channel_format (v : Z) :
  0 <= v <= 255 ->
  exists c1 c2,
    format_02x v = String c1 (String c2 "") /\
    Ascii.eqb c1 "#" = false /\
    PyInt.int_of_str (String c1 (String c2 "")) 16 = Ok v.
Proof.
  intros Hv. pose proof channels_round_trip as H.
  rewrite forallb_forall in H. specialize (H (Z.to_nat v)).
  rewrite Z2Nat.id in H by lia.
  assert (Hin : In (Z.to_nat v) (seq 0 256)) by (apply in_seq; lia).
  apply H in Hin. unfold channel_round_trip in Hin.
  destruct (format_02x v) as [|c1 [|c2 [|c3 s]]]; try discriminate.
  apply andb_prop in Hin as [Hc Hi]. apply negb_true_iff in Hc.
  destruct (PyInt.int_of_str (String c1 (String c2 "")) 16) as [v'|] eqn:E;
    [|discriminate].
  apply Z.eqb_eq in Hi. subst v'. exists c1, c2. auto.
Qed.

(** X20. The two colour helpers of [interpolate_color] are inverse on
    proper colours: for channels between 0 and 255, [rgb_to_hex] gives a
    ['#'] followed by six characters, and [hex_to_rgb] reads the three
    channels back from it. *)
Theorem hex_to_rgb_of_rgb_to_hex (r g b : Z) :
  0 <= r <= 255 -> 0 <= g <= 255 -> 0 <= b <= 255 ->
  hex_to_rgb (rgb_to_hex (r, g, b)) = Ok (r, g, b) /\
  String.length (rgb_to_hex (r, g, b)) = 7%nat /\
  starts_with "#" (rgb_to_hex (r, g, b)) = true.
Proof.
  intros Hr Hg Hb.
  destruct (channel_format r Hr) as (r1 & r2 & Er & Hr1 & Ir).
  destruct (channel_format g Hg) as (g1 & g2 & Eg & _ & Ig).
  destruct (channel_format b Hb) as (b1 & b2 & Eb & _ & Ib).
  unfold rgb_to_hex. rewrite Er, Eg, Eb. cbn [append].
  split; [|split; reflexivity].
  unfold hex_to_rgb. cbn [lstrip_char].
  change (Ascii.eqb "#" "#") with true. cbv iota. cbn [lstrip_char].
  rewrite Hr1. unfold slice. cbn [Nat.sub take drop].
  rewrite Ir, Ig, Ib. reflexivity.
Qed.

Lemma hex_to_rgb_of_rgb_to_hex_witness :
  hex_to_rgb (rgb_to_hex (137, 180, 250)) = Ok (137, 180, 250) /\
  String.length (rgb_to_hex (137, 180, 250)) = 7%nat /\
  starts_with "#" (rgb_to_hex (137, 180, 250)) = true.
Proof. apply (hex_to_rgb_of_rgb_to_hex 137 180 250); lia. Defined.

(** X21. [detect_input_base] undoes [get_prefixed_result]: from a result
    prefixed for Binary, Octal or Hexadecimal it recovers the base and
    the unprefixed result, whatever the result is; and for a base that
    has no entry in the table of prefixes, Decimal included, the result
    is left without prefix. *)
Theorem detect_after_prefix (result base : string) :
  (mem base ["Binary"; "Octal"; "Hexadecimal"] = true ->
   detect_input_base (get_prefixed_result result base) = (Some base, result)) /\
  (mem base ["Binary"; "Octal"; "Hexadecimal"] = false ->
   get_prefixed_result result base = result).
Proof.
  unfold mem. cbn [existsb]. rewrite !orb_false_r. split.
  - intros H. apply orb_prop in H as [H|H]; [|apply orb_prop in H as [H|H]];
      apply String.eqb_eq in H; subst base; reflexivity.
  - intros H. apply orb_false_elim in H as [H1 H].
    apply orb_false_elim in H as [H2 H3].
    unfold get_prefixed_result, prefixes. cbn [dict_get].
    rewrite !(String.eqb_sym _ base), H1, H2, H3.
    now destruct (String.eqb base "Decimal").
Qed.

Lemma detect_after_prefix_witness :
  detect_input_base (get_prefixed_result "7F" "Hexadecimal")
  = (Some "Hexadecimal", "7F").
Proof.
  apply (proj1 (detect_after_prefix "7F" "Hexadecimal")). reflexivity.
Defined.

Lemma convert_number_selection (w : window) :
  exists w',
    convert_number w = Ok w' /\
    input_var w' = input_var w /\
    to_base_var w' = to_base_var w /\
    from_base_var w'
    = match fst (detect_input_base (strip (input_var w))) with
      | Some b => b
      | None => from_base_var w
      end.
Proof.
  unfold convert_number.
  destruct (strip (input_var w)) as [|c s] eqn:Es.
  { cbn. eexists. split; [reflexivity|]. repeat split. }
  cbn [String.length Nat.eqb].
  destruct (detect_input_base (String c s)) as [[b|] number]; cbn [fst].
  - match goal with
    | |- context [validate_number ?x ?y] =>
        destruct (validate_number_total x y) as [E|E]; rewrite E
    end; cbn [bind negb].
    + match goal with
      | |- context [convert_number_logic ?x ?y ?z] =>
          destruct (convert_number_logic x y z)
      end; eexists; (split; [reflexivity|]); [finish_run | repeat split].
    + eexists. split; [reflexivity|]. repeat split.
  - match goal with
    | |- context [validate_number ?x ?y] =>
        destruct (validate_number_total x y) as [E|E]; rewrite E
    end; cbn [bind negb].
    + match goal with
      | |- context [convert_number_logic ?x ?y ?z] =>
          destruct (convert_number_logic x y z)
      end; eexists; (split; [reflexivity|]); [finish_run | repeat split].
    + eexists. split; [reflexivity|]. repeat split.
Qed.

Lemma swap_bases_once (w : window) :
  exists w',
    swap_bases w = Ok w' /\
    input_var w' = input_var w /\
    to_base_var w' = from_base_var w /\
    from_base_var w'
    = match fst (detect_input_base (strip (input_var w))) with
      | Some b => b
      | None => to_base_var w
      end.
Proof.
  unfold swap_bases. cbv zeta.
  match goal with
  | |- context [convert_number ?W] =>
      destruct (convert_number_selection W) as (w1 & E1 & I1 & T1 & F1)
  end.
  cbn [set_from_base input_var from_base_var to_base_var] in I1, T1, F1.
  exists w1. auto.
Qed.

(** X22. [swap_bases] exchanges the two selections and runs the
    conversion again; it never raises and leaves the input as it is.
    When the stripped input carries no prefix, the selections end
    exchanged and a second swap restores them.  When it carries the
    prefix of a base [b], the conversion overrides the source selection:
    after one swap the source is [b] and the target is the former source,
    and after two swaps both selections are [b]. *)
Theorem swap_bases_selection (w : window) :
  exists w1 w2,
    swap_bases w = Ok w1 /\ swap_bases w1 = Ok w2 /\
    input_var w1 = input_var w /\ input_var w2 = input_var w /\
    to_base_var w1 = from_base_var w /\
    match fst (detect_input_base (strip (input_var w))) with
    | None =>
        from_base_var w1 = to_base_var w /\
        from_base_var w2 = from_base_var w /\ to_base_var w2 = to_base_var w
    | Some b =>
        from_base_var w1 = b /\ from_base_var w2 = b /\ to_base_var w2 = b
    end.
Proof.
  destruct (swap_bases_once w) as (w1 & E1 & I1 & T1 & F1).
  destruct (swap_bases_once w1) as (w2 & E2 & I2 & T2 & F2).
  exists w1, w2. rewrite I1 in I2, F2.
  split; [exact E1|]. split; [exact E2|].
  split; [exact I1|]. split; [exact I2|]. split; [exact T1|].
  destruct (fst (detect_input_base (strip (input_var w)))) as [b|].
  - repeat split; congruence.
  - repeat split; congruence.
Qed.
